(** * Answer sanitizing and payload building of the audio-survey relay

    A shallow embedding of [app/main.py]: the JSON values that
    [json.loads] and [requests.Response.json] hand to the program, the
    Python operations the code applies to them (with the exceptions they
    raise), [sanitize_answers], [build_backend_payload] and the control
    flow of the [POST /stt] handler.

    Strings are sequences of ASCII characters: [str.lower], [str.strip]
    and [uuid.UUID] are modelled on code points below 128, where they
    are exact; [ascii_only] marks the texts a statement takes to be
    ASCII. *)

From Stdlib Require Import ZArith List String Ascii Bool Lia.
From Stdlib Require Import Floats.SpecFloat.
Import ListNotations.

Local Open Scope string_scope.
Local Open Scope Z_scope.

Set Warnings "-register-all".

(** ** JSON values as Python sees them *)

(** What [json.loads] builds: [None], [bool], [int], [float], [str],
    [list] and [dict] with string keys.  A dict keeps its keys in
    insertion order, so it is an association list; [json.loads] never
    produces two entries with one key. *)
Inductive json : Type :=
| JNull
| JBool (b : bool)
| JInt (z : Z)
| JFloat (f : spec_float)
| JStr (s : string)
| JList (l : list json)
| JDict (d : list (string * json)).

Definition dict := list (string * json).

(** Exceptions the modelled code can raise. *)
Inductive exn : Type :=
| KeyError
| TypeError
| AttributeError
| IndexError.

Inductive result (A : Type) : Type :=
| Ok (a : A)
| Raise (e : exn).

Arguments Ok {A} a.
Arguments Raise {A} e.

Definition bind {A B} (m : result A) (k : A -> result B) : result B :=
  match m with
  | Ok a => k a
  | Raise e => Raise e
  end.

Notation "x <- m ;; k" := (bind m (fun x => k))
  (at level 61, m at next level, right associativity).

(** A loop that collects one list per element and stops at the first
    exception, as a Python [for] does. *)
Fixpoint for_each {A B} (f : A -> result (list B)) (xs : list A)
  : result (list B) :=
  match xs with
  | [] => Ok []
  | x :: rest =>
      ys <- f x ;;
      zs <- for_each f rest ;;
      Ok (ys ++ zs)%list
  end.

(** ** Dictionaries *)

Fixpoint lookup (k : string) (d : dict) : option json :=
  match d with
  | [] => None
  | (k', v) :: rest => if String.eqb k k' then Some v else lookup k rest
  end.

(** [d[k] = v]: overwrite in place, or append a new key. *)
Fixpoint dset (k : string) (v : json) (d : dict) : dict :=
  match d with
  | [] => [(k, v)]
  | (k', v') :: rest =>
      if String.eqb k k' then (k', v) :: rest else (k', v') :: dset k v rest
  end.

(** [d.pop(k)] on the dictionary side: the entry is gone. *)
Fixpoint dpop (k : string) (d : dict) : dict :=
  match d with
  | [] => []
  | (k', v') :: rest =>
      if String.eqb k k' then dpop k rest else (k', v') :: dpop k rest
  end.

(** [d.get(k, dflt)] and [d.get(k)]. *)
Definition dget_or (k : string) (dflt : json) (d : dict) : json :=
  match lookup k d with
  | Some v => v
  | None => dflt
  end.

Definition dget (k : string) (d : dict) : json := dget_or k JNull d.

(** ** Python operations on arbitrary values *)

Definition float_is_zero (f : spec_float) : bool :=
  match f with
  | S754_zero _ => true
  | _ => false
  end.

(** [bool(v)]. *)
Definition truthy (v : json) : bool :=
  match v with
  | JNull => false
  | JBool b => b
  | JInt z => negb (z =? 0)
  | JFloat f => negb (float_is_zero f)
  | JStr s => negb (String.eqb s "")
  | JList l => match l with [] => false | _ => true end
  | JDict d => match d with [] => false | _ => true end
  end.

(** [v is None]. *)
Definition is_none (v : json) : bool :=
  match v with
  | JNull => true
  | _ => false
  end.

(** Exact comparison of a float with an integer, as Python does it. *)
Definition float_eq_Z (f : spec_float) (z : Z) : bool :=
  match f with
  | S754_zero _ => z =? 0
  | S754_finite s m e =>
      let v := if s then Z.neg m else Z.pos m in
      if 0 <=? e then v * 2 ^ e =? z else z * 2 ^ (- e) =? v
  | _ => false
  end.

(** [v == k] for an integer literal [k]: [True == 1] and [1.0 == 1]
    hold in Python. *)
Definition eq_int (v : json) (k : Z) : bool :=
  match v with
  | JBool b => (if b then 1 else 0) =? k
  | JInt z => z =? k
  | JFloat f => float_eq_Z f k
  | _ => false
  end.

(** Lists and dicts are unhashable: using one as a dict key or as a set
    element, or looking one up, raises [TypeError]. *)
Definition hashable (v : json) : bool :=
  match v with
  | JList _ | JDict _ => false
  | _ => true
  end.

Definition check_hashable (v : json) : result unit :=
  if hashable v then Ok tt else Raise TypeError.

(** Two floats as dict keys or set elements.  [json.loads] hands out
    one NaN object for every [NaN] it reads, and a dict or a set finds a
    key by identity before it compares: NaN matches NaN there. *)
Definition float_key_eq (f g : spec_float) : bool :=
  match f, g with
  | S754_nan, S754_nan => true
  | _, _ => SFeqb f g
  end.

(** Equality of two hashable values as dict keys or set elements. *)
Definition key_eq (a b : json) : bool :=
  match a, b with
  | JNull, JNull => true
  | JStr s, JStr t => String.eqb s t
  | JFloat f, JFloat g => float_key_eq f g
  | JFloat f, JInt z | JInt z, JFloat f => float_eq_Z f z
  | JFloat f, JBool c | JBool c, JFloat f => float_eq_Z f (if c then 1 else 0)
  | JInt y, JInt z => y =? z
  | JInt z, JBool c | JBool c, JInt z => z =? (if c then 1 else 0)
  | JBool b, JBool c => Bool.eqb b c
  | _, _ => false
  end.

(** [v.get(k, dflt)]: only a dict has [get]. *)
Definition py_get (v : json) (k : string) (dflt : json) : result json :=
  match v with
  | JDict d => Ok (dget_or k dflt d)
  | _ => Raise AttributeError
  end.

(** [v[k]] for a string [k]. *)
Definition py_getitem (v : json) (k : string) : result json :=
  match v with
  | JDict d =>
      match lookup k d with
      | Some x => Ok x
      | None => Raise KeyError
      end
  | _ => Raise TypeError
  end.

(** [v[0]]. *)
Definition py_getitem0 (v : json) : result json :=
  match v with
  | JList (x :: _) => Ok x
  | JList [] => Raise IndexError
  | JStr (String c _) => Ok (JStr (String c ""))
  | JStr EmptyString => Raise IndexError
  | JDict _ => Raise KeyError
  | _ => Raise TypeError
  end.

Fixpoint chars (s : string) : list json :=
  match s with
  | EmptyString => []
  | String c rest => JStr (String c "") :: chars rest
  end.

(** [for x in v]: a list yields its elements, a string its characters,
    a dict its keys. *)
Definition py_iter (v : json) : result (list json) :=
  match v with
  | JList l => Ok l
  | JStr s => Ok (chars s)
  | JDict d => Ok (map (fun kv => JStr (fst kv)) d)
  | _ => Raise TypeError
  end.

(** The receiver of a [str] method such as [strip] or [lower]. *)
Definition py_str (v : json) : result string :=
  match v with
  | JStr s => Ok s
  | _ => Raise AttributeError
  end.

(** [x in s] for a set [s] given by its elements. *)
Definition py_in (x : json) (s : list json) : result bool :=
  _ <- check_hashable x ;;
  Ok (existsb (key_eq x) s).

(** ** Strings *)

Definition lower_ascii (c : ascii) : ascii :=
  let n := nat_of_ascii c in
  if (Nat.leb 65 n && Nat.leb n 90)%bool then ascii_of_nat (n + 32) else c.

Fixpoint lower (s : string) : string :=
  match s with
  | EmptyString => EmptyString
  | String c rest => String (lower_ascii c) (lower rest)
  end.

(** [str.isspace] on ASCII: tab to carriage return, the four separators
    28 to 31, and the space. *)
Definition is_space (c : ascii) : bool :=
  let n := nat_of_ascii c in
  ((Nat.leb 9 n && Nat.leb n 13) || (Nat.leb 28 n && Nat.leb n 32))%bool.

Fixpoint lstrip_by (p : ascii -> bool) (s : string) : string :=
  match s with
  | EmptyString => EmptyString
  | String c rest => if p c then lstrip_by p rest else s
  end.

Fixpoint rstrip_by (p : ascii -> bool) (s : string) : string :=
  match s with
  | EmptyString => EmptyString
  | String c rest =>
      match rstrip_by p rest with
      | EmptyString => if p c then EmptyString else String c EmptyString
      | kept => String c kept
      end
  end.

Definition strip_by (p : ascii -> bool) (s : string) : string :=
  rstrip_by p (lstrip_by p s).

(** [s.strip()]. *)
Definition strip (s : string) : string := strip_by is_space s.

(** A string of ASCII characters only. *)
Fixpoint ascii_only (s : string) : bool :=
  match s with
  | EmptyString => true
  | String c rest => (Nat.ltb (nat_of_ascii c) 128 && ascii_only rest)%bool
  end.

(** ** The template index [mapa] *)

(** [mapa] is a Python dict keyed by question ids, which may be any
    hashable JSON value. *)
Definition index := list (json * json).

Fixpoint mapa_find (k : json) (m : index) : option json :=
  match m with
  | [] => None
  | (k', v) :: rest => if key_eq k k' then Some v else mapa_find k rest
  end.

Fixpoint mapa_set (k v : json) (m : index) : index :=
  match m with
  | [] => [(k, v)]
  | (k', v') :: rest =>
      if key_eq k k' then (k', v) :: rest else (k', v') :: mapa_set k v rest
  end.

(** [mapa.get(qid)]: hashing [qid] comes first. *)
Definition mapa_get (m : index) (qid : json) : result (option json) :=
  _ <- check_hashable qid ;;
  Ok (mapa_find qid m).

(** [{p["id"]: p for p in preguntas}], continued from [m]. *)
Fixpoint index_questions (ps : list json) (m : index) : result index :=
  match ps with
  | [] => Ok m
  | p :: rest =>
      k <- py_getitem p "id" ;;
      _ <- check_hashable k ;;
      index_questions rest (mapa_set k p m)
  end.

Definition build_mapa (plantilla : json) : result index :=
  preguntas <- py_getitem plantilla "preguntas" ;;
  ps <- py_iter preguntas ;;
  index_questions ps [].

(** ** [sanitize_answers] *)

(** Lines 67-68: accept ['id'] in place of ['pregunta_id']. *)
Definition resolve_alias (item : dict) : dict :=
  if (negb (truthy (dget "pregunta_id" item)) && truthy (dget "id" item))%bool
  then dset "pregunta_id" (dget "id" item) (dpop "id" item)
  else item.

(** [mapa.get(qid) or {}]. *)
Definition question_of (found : option json) : json :=
  match found with
  | Some p => if truthy p then p else JDict []
  | None => JDict []
  end.

(** Lines 78-80. *)
Definition rule_free_text (tipo preg : json) (item : dict) : result dict :=
  if (eq_int tipo 1 && truthy (dget "texto" item))%bool then
    given <- py_str (dget "texto" item) ;;
    qtext <- py_get preg "texto" (JStr "") ;;
    asked <- py_str qtext ;;
    if String.eqb (lower (strip given)) (lower asked)
    then Ok (dset "texto" JNull item)
    else Ok item
  else Ok item.

(** Lines 83-84. *)
Definition rule_numeric (tipo : json) (item : dict) : dict :=
  if (eq_int tipo 2 && negb (is_none (dget "numero" item)))%bool
  then dset "texto" JNull item
  else item.

(** Lines 86-90. *)
Definition rule_single_choice (tipo : json) (item : dict) : result dict :=
  if eq_int tipo 3 then
    let item := dset "texto" JNull item in
    if truthy (dget "opciones_ids" item) then
      first <- py_getitem0 (dget "opciones_ids" item) ;;
      Ok (dset "opciones_ids" (JList []) (dset "opcion_id" first item))
    else Ok item
  else Ok item.

(** [{o["id"] for o in ...}], as the list of its elements. *)
Fixpoint collect_ids (os : list json) : result (list json) :=
  match os with
  | [] => Ok []
  | o :: rest =>
      k <- py_getitem o "id" ;;
      _ <- check_hashable k ;;
      ks <- collect_ids rest ;;
      Ok (k :: ks)
  end.

(** [valid] of line 94. *)
Definition valid_ids (preg : json) : result (list json) :=
  opciones <- py_get preg "opciones" (JList []) ;;
  os <- py_iter opciones ;;
  collect_ids os.

(** [[oid for oid in ids if oid in valid]]. *)
Fixpoint keep_valid (valid ids : list json) : result (list json) :=
  match ids with
  | [] => Ok []
  | oid :: rest =>
      b <- py_in oid valid ;;
      kept <- keep_valid valid rest ;;
      Ok (if b then oid :: kept else kept)
  end.

(** Lines 92-95. *)
Definition rule_multi_choice (tipo preg : json) (item : dict) : result dict :=
  if eq_int tipo 4 then
    let item := dset "texto" JNull item in
    valid <- valid_ids preg ;;
    ids <- py_iter (dget_or "opciones_ids" (JList []) item) ;;
    kept <- keep_valid valid ids ;;
    Ok (dset "opciones_ids" (JList kept) item)
  else Ok item.

(** The body of the loop for an entry that is a dict: [None] stands for
    [continue], [Some] for the entry appended to [dep]. *)
Definition sanitize_dict (mapa : index) (item : dict) : result (option dict) :=
  let item := resolve_alias item in
  let qid := dget "pregunta_id" item in
  if negb (truthy qid) then Ok None
  else
    let tipo := dget "tipo_pregunta_id" item in
    found <- mapa_get mapa qid ;;
    let preg := question_of found in
    item <- rule_free_text tipo preg item ;;
    let item := rule_numeric tipo item in
    item <- rule_single_choice tipo item ;;
    item <- rule_multi_choice tipo preg item ;;
    Ok (Some item).

(** The body of the loop: [item.get] needs a dict. *)
Definition sanitize_item (mapa : index) (item : json) : result (list json) :=
  match item with
  | JDict d =>
      out <- sanitize_dict mapa d ;;
      Ok (match out with
          | Some d' => [JDict d']
          | None => []
          end)
  | _ => Raise AttributeError
  end.

Definition sanitize_answers (data plantilla : json) : result json :=
  mapa <- build_mapa plantilla ;;
  match data with
  | JDict d =>
      items <- py_iter (dget_or "respuestas_preguntas" (JList []) d) ;;
      dep <- for_each (sanitize_item mapa) items ;;
      Ok (JDict (dset "respuestas_preguntas" (JList dep) d))
  | _ => Raise AttributeError
  end.

(** ** [build_backend_payload] *)

(** [numero not in (None, "")]. *)
Definition numero_given (v : json) : bool :=
  match v with
  | JNull => false
  | JStr s => negb (String.eqb s "")
  | _ => true
  end.

(** Lines 105-112: the record shared by the rows of one answer. *)
Definition base_record (r : dict) : result dict :=
  pid <- py_getitem (JDict r) "pregunta_id" ;;
  let base := [("pregunta_id", pid)] in
  let base :=
    if truthy (dget "texto" r) then dset "texto" (dget "texto" r) base
    else base in
  let base :=
    if numero_given (dget "numero" r) then dset "numero" (dget "numero" r) base
    else base in
  let base :=
    if truthy (dget "opcion_id" r) then dset "opcion_id" (dget "opcion_id" r) base
    else base in
  Ok base.

(** Lines 105-118: the rows appended to [filas] for one answer. *)
Definition rows_of_answer (r : json) : result (list json) :=
  match r with
  | JDict d =>
      base <- base_record d ;;
      if truthy (dget "opciones_ids" d) then
        ids <- py_iter (dget "opciones_ids" d) ;;
        Ok (map (fun oid => JDict (dset "opcion_id" oid base)) ids)
      else Ok [JDict base]
  | _ => Raise TypeError
  end.

Definition build_backend_payload (res_json : json) : result json :=
  match res_json with
  | JDict d =>
      rs <- py_iter (dget_or "respuestas_preguntas" (JList []) d) ;;
      filas <- for_each rows_of_answer rs ;;
      Ok (JDict [("respuestas_preguntas", JList filas)])
  | _ => Raise AttributeError
  end.

(** ** [uuid.UUID] on a string *)

(** Modelled from the Python standard library, whose code is not part of
    this repository: [uuid.UUID(hex)] removes ["urn:"] and ["uuid:"],
    strips braces, removes hyphens, wants 32 characters and reads them
    with [int(hex, 16)]. *)

(** [s.replace(old, "")] for a non-empty [old]; [skip] counts the
    characters of a match still to be dropped. *)
Fixpoint without (old : string) (skip : nat) (s : string) : string :=
  match s with
  | EmptyString => EmptyString
  | String c rest =>
      match skip with
      | S n => without old n rest
      | O =>
          if String.prefix old s
          then without old (Nat.pred (String.length old)) rest
          else String c (without old O rest)
      end
  end.

Definition in_range (lo hi : nat) (c : ascii) : bool :=
  (Nat.leb lo (nat_of_ascii c) && Nat.leb (nat_of_ascii c) hi)%bool.

Definition is_hex (c : ascii) : bool :=
  (in_range 48 57 c || in_range 65 70 c || in_range 97 102 c)%bool.

(** The white space [int] skips in an ASCII string. *)
Definition is_blank (c : ascii) : bool :=
  (in_range 9 13 c || Ascii.eqb c " ")%bool.

Definition is_brace (c : ascii) : bool :=
  (Ascii.eqb c "{" || Ascii.eqb c "}")%bool.

Fixpoint all_blank (s : string) : bool :=
  match s with
  | EmptyString => true
  | String c rest => (is_blank c && all_blank rest)%bool
  end.

(** Hexadecimal digits with single underscores between them, then
    white space up to the end. *)
Fixpoint hex_digits (after_underscore : bool) (s : string) : bool :=
  match s with
  | EmptyString => negb after_underscore
  | String c rest =>
      if is_hex c then hex_digits false rest
      else if Ascii.eqb c "_"
           then (negb after_underscore && hex_digits true rest)%bool
           else (negb after_underscore && all_blank s)%bool
  end.

(** Whether [int(s, 16)] returns: white space, a sign, a [0x] prefix
    with one underscore allowed after it, then the digits. *)
Definition int16_ok (s : string) : bool :=
  let s := lstrip_by is_blank s in
  let s :=
    match s with
    | String c rest =>
        if (Ascii.eqb c "+" || Ascii.eqb c "-")%bool then rest else s
    | EmptyString => s
    end in
  let s :=
    match s with
    | String "0" (String x rest) =>
        if (Ascii.eqb x "x" || Ascii.eqb x "X")%bool
        then match rest with
             | String "_" rest' => rest'
             | _ => rest
             end
        else s
    | _ => s
    end in
  match s with
  | String c _ => (is_hex c && hex_digits false s)%bool
  | EmptyString => false
  end.

Definition uuid_digits (s : string) : string :=
  without "-" O (strip_by is_brace (without "uuid:" O (without "urn:" O s))).

(** Whether [uuid.UUID(s)] returns instead of raising [ValueError]. *)
Definition UUID_ok (s : string) : bool :=
  (Nat.eqb (String.length (uuid_digits s)) 32 && int16_ok (uuid_digits s))%bool.

(** [name.split(".")[0]]. *)
Fixpoint before_dot (name : string) : string :=
  match name with
  | EmptyString => EmptyString
  | String c rest =>
      if Ascii.eqb c "." then EmptyString else String c (before_dot rest)
  end.

(** ** The [POST /stt] handler *)

(** The upload as the handler reads it.  Either attribute may be [None]
    when the multipart part does not carry it. *)
Record UploadFile : Type := {
  content_type : option string;
  filename : option string;
  contents : string
}.

(** What [requests.get] followed by [r.json()] can do. *)
Inductive get_reply : Type :=
| GetRaised
| GetReplied (status_code : Z) (text : string) (body : option json).

(** What the chat completion followed by [json.loads] can do: the call
    raises, or its content decodes ([Some]) or does not ([None]). *)
Inductive gpt_reply : Type :=
| GptRaised
| GptContent (decoded : option json).

(** What the body of the last [try] can do: one of [requests.post],
    [raise_for_status] and [resp.json()] raises, with the text of the
    exception, or the reply decodes. *)
Inductive post_reply : Type :=
| PostFailed (exc : string)
| PostReplied (body : json).

(** The collaborators of one request. *)
Record world : Type := {
  backend_get : string -> get_reply;
  whisper : string -> string -> option string;
  gpt : json -> string -> gpt_reply;
  backend_post : string -> json -> post_reply
}.

Inductive detail : Type :=
| NotAudio
| BadFilename
| NoPlantilla (text : string)
| BadGptJson.

(** How the request ends: an [HTTPException], an exception nobody
    catches (the framework answers 500), or the [JSONResponse] the
    handler built. *)
Inductive response : Type :=
| HTTPException (status_code : Z) (why : detail)
| Unhandled
| JSONResponse (content : json).

Definition status (r : response) : Z :=
  match r with
  | HTTPException code _ => code
  | Unhandled => 500
  | JSONResponse _ => 200
  end.

(** Lines 30-35; [inl] is the response that ends the request. *)
Definition fetch_plantilla (w : world) (entrega_id : string)
  : response + json :=
  match backend_get w entrega_id with
  | GetRaised => inl Unhandled
  | GetReplied code text body =>
      if negb (code =? 200) then inl (HTTPException code (NoPlantilla text))
      else match body with
           | Some plantilla => inr plantilla
           | None => inl Unhandled
           end
  end.

(** Lines 174-180. *)
Definition submit (w : world) (entrega_id : string) (backend_payload : json)
  : json :=
  match backend_post w entrega_id backend_payload with
  | PostReplied body => body
  | PostFailed exc =>
      JDict [("error", JStr exc); ("payload_enviado", backend_payload)]
  end.

(** Lines 129-133: the delivery id, or [None] where the handler raises
    its 400. *)
Definition entrega_of (file : UploadFile) : option string :=
  match filename file with
  | None => None
  | Some name =>
      if UUID_ok (before_dot name) then Some (before_dot name) else None
  end.

(** Lines 135-172: everything before the submission.  [inl] is the
    response that ends the request early, [inr] the transcript and the
    payload to submit. *)
Definition prepare (w : world) (file : UploadFile) (name entrega_id : string)
  : response + (string * json) :=
  match fetch_plantilla w entrega_id with
  | inl r => inl r
  | inr plantilla =>
      match py_getitem plantilla "preguntas" with
      | Raise _ => inl Unhandled
      | Ok preguntas =>
          match whisper w (contents file) name with
          | None => inl Unhandled
          | Some transcript =>
              match gpt w preguntas transcript with
              | GptRaised => inl Unhandled
              | GptContent None => inl (HTTPException 500 BadGptJson)
              | GptContent (Some raw_json) =>
                  match sanitize_answers raw_json plantilla with
                  | Raise _ => inl Unhandled
                  | Ok ocr_json =>
                      match build_backend_payload ocr_json with
                      | Raise _ => inl Unhandled
                      | Ok backend_payload => inr (transcript, backend_payload)
                      end
                  end
              end
          end
      end
  end.

(** A float [json.dumps] writes with [allow_nan=False]. *)
Definition finite (f : spec_float) : bool :=
  match f with
  | S754_zero _ | S754_finite _ _ _ => true
  | S754_infinity _ | S754_nan => false
  end.

(** Whether the [JSONResponse] constructor renders a content: it calls
    [json.dumps] with [allow_nan=False], which raises [ValueError] on a
    NaN or an infinity anywhere in the content. *)
Fixpoint renderable (v : json) : bool :=
  match v with
  | JFloat f => finite f
  | JList l => forallb renderable l
  | JDict d => forallb (fun kv : string * json => renderable (snd kv)) d
  | _ => true
  end.

(** Lines 182-187: the constructor renders inside the handler, so a
    content it cannot render ends the request with an exception. *)
Definition json_response (content : json) : response :=
  if renderable content then JSONResponse content else Unhandled.

(** Lines 135-187, once the upload is accepted. *)
Definition process (w : world) (file : UploadFile) (name entrega_id : string)
  : response :=
  match prepare w file name entrega_id with
  | inl r => r
  | inr (transcript, backend_payload) =>
      json_response
        (JDict
           [("entrega_id", JStr entrega_id);
            ("transcripcion", JStr transcript);
            ("payload_enviado", backend_payload);
            ("respuesta_backend", submit w entrega_id backend_payload)])
  end.

Definition stt_endpoint (w : world) (file : UploadFile) : response :=
  match content_type file with
  | None => Unhandled
  | Some ct =>
      if negb (String.prefix "audio/" ct) then HTTPException 400 NotAudio
      else
        match filename file, entrega_of file with
        | Some name, Some entrega_id => process w file name entrega_id
        | _, _ => HTTPException 400 BadFilename
        end
  end.

(** ** Well-shaped inputs *)

(** The answers listed by a document, as the loops read them. *)
Definition answers_of (doc : json) : list json :=
  match doc with
  | JDict d =>
      match py_iter (dget_or "respuestas_preguntas" (JList []) d) with
      | Ok items => items
      | Raise _ => []
      end
  | _ => []
  end.

Definition id_list (v : option json) : bool :=
  match v with
  | None => true
  | Some (JList ids) => forallb hashable ids
  | Some _ => false
  end.

Definition is_text (v : json) : bool :=
  match v with
  | JNull | JStr _ => true
  | _ => false
  end.

Definition has_hashable_id (d : dict) : bool :=
  match lookup "id" d with
  | Some k => hashable k
  | None => false
  end.

Definition wf_option (o : json) : bool :=
  match o with
  | JDict d => has_hashable_id d
  | _ => false
  end.

Definition wf_pregunta (p : json) : bool :=
  match p with
  | JDict d =>
      (has_hashable_id d
       && match lookup "texto" d with
          | None | Some (JStr _) => true
          | Some _ => false
          end
       && match lookup "opciones" d with
          | None => true
          | Some (JList os) => forallb wf_option os
          | Some _ => false
          end)%bool
  | _ => false
  end.

(** A template: an object whose ["preguntas"] is a list of questions
    with a hashable id, a string text if any, and options with ids. *)
Definition wf_plantilla (plantilla : json) : bool :=
  match plantilla with
  | JDict d =>
      match lookup "preguntas" d with
      | Some (JList ps) => forallb wf_pregunta ps
      | _ => false
      end
  | _ => false
  end.

Definition wf_answer (a : json) : bool :=
  match a with
  | JDict d =>
      (hashable (dget "pregunta_id" d) && hashable (dget "id" d)
       && is_text (dget "texto" d) && id_list (lookup "opciones_ids" d))%bool
  | _ => false
  end.

(** Extracted answers: an object whose ["respuestas_preguntas"], if
    any, is a list of objects with scalar identifiers, a text that is a
    string or null, and a list of scalar choice ids if any. *)
Definition wf_data (data : json) : bool :=
  match data with
  | JDict d =>
      match lookup "respuestas_preguntas" d with
      | None => true
      | Some (JList items) => forallb wf_answer items
      | Some _ => false
      end
  | _ => false
  end.

(** The identifier of an entry, read under either field name. *)
Definition answer_id (item : dict) : json :=
  dget "pregunta_id" (resolve_alias item).

(** Whether an entry names a question under either field name. *)
Definition has_id (a : json) : bool :=
  match a with
  | JDict d => (truthy (dget "pregunta_id" d) || truthy (dget "id" d))%bool
  | _ => false
  end.

(** ** What "active" means for the fields of an answer *)

(** A field is active when [build_backend_payload] would send it. *)
Definition field_active (k : string) (r : dict) : bool :=
  if String.eqb k "numero" then numero_given (dget k r) else truthy (dget k r).

Definition answer_fields : list string :=
  ["texto"; "numero"; "opcion_id"; "opciones_ids"].

Definition active_fields (r : dict) : list string :=
  filter (fun k => field_active k r) answer_fields.

(** The field that carries the answer of a question of each type. *)
Definition carrier (tipo : json) : option string :=
  if eq_int tipo 1 then Some "texto"
  else if eq_int tipo 2 then Some "numero"
  else if eq_int tipo 3 then Some "opcion_id"
  else if eq_int tipo 4 then Some "opciones_ids"
  else None.

(** Exactly the carrier of the declared type is active. *)
Definition one_field_per_type (r : dict) : Prop :=
  forall k, carrier (dget "tipo_pregunta_id" r) = Some k ->
            active_fields r = [k].


(** Whether [oid] is one of the ids in [valid]. *)
Definition declared (valid : list json) (oid : json) : bool :=
  existsb (key_eq oid) valid.

(** What the rules read of a question: a string text if any, and
    options with hashable ids. *)
Definition wf_preg (preg : json) : bool :=
  match preg with
  | JDict d =>
      (match lookup "texto" d with
       | None | Some (JStr _) => true
       | Some _ => false
       end
       && match lookup "opciones" d with
          | None => true
          | Some (JList os) => forallb wf_option os
          | Some _ => false
          end)%bool
  | _ => false
  end.

Definition index_wf (m : index) : Prop :=
  Forall (fun kv => wf_pregunta (snd kv) = true) m.

(** ** A small survey, for the examples *)

Definition uuid_a : string := "11111111-1111-1111-1111-111111111111".
Definition uuid_b : string := "22222222-2222-2222-2222-222222222222".

Definition pregunta (qid texto : string) (tipo : Z) (opciones : list string)
  : json :=
  JDict [("id", JStr qid); ("texto", JStr texto);
         ("tipo_pregunta_id", JInt tipo);
         ("opciones", JList (map (fun o => JDict [("id", JStr o)]) opciones))].

Definition q_nombre : json := pregunta "q1" "Nombre" 1 [].
Definition q_edad : json := pregunta "q2" "Edad" 2 [].
Definition q_color : json := pregunta "q3" "Color" 3 [uuid_a; uuid_b].
Definition q_frutas : json := pregunta "q4" "Frutas" 4 [uuid_a; uuid_b].

Definition demo_plantilla : json :=
  JDict [("preguntas", JList [q_nombre; q_edad; q_color; q_frutas])].

Definition demo_mapa : index :=
  [(JStr "q1", q_nombre); (JStr "q2", q_edad);
   (JStr "q3", q_color); (JStr "q4", q_frutas)].

(** One extracted answer with the six keys the prompt asks for. *)
Definition respuesta (qid : string) (tipo : Z) (texto numero opcion_id : json)
  (opciones_ids : list json) : dict :=
  [("pregunta_id", JStr qid); ("tipo_pregunta_id", JInt tipo);
   ("texto", texto); ("numero", numero); ("opcion_id", opcion_id);
   ("opciones_ids", JList opciones_ids)].

Definition respuestas (items : list dict) : json :=
  JDict [("respuestas_preguntas", JList (map JDict items))].

Definition ans_text_and_number : dict :=
  respuesta "q1" 1 (JStr "Ana") (JInt 5) JNull [].
Definition ans_numeric_text : dict :=
  respuesta "q1" 1 (JInt 5) JNull JNull [].
Definition ans_echo : dict :=
  respuesta "q1" 1 (JStr "  NOMBRE ") JNull JNull [].
Definition ans_zero : dict :=
  respuesta "q2" 2 JNull (JInt 0) JNull [].
Definition ans_two_choices : dict :=
  respuesta "q3" 3 (JStr "rojo") (JInt 7) JNull [JStr uuid_a; JStr uuid_b].
Definition ans_first_choice : dict :=
  respuesta "q3" 3 JNull (JInt 7) (JStr uuid_a) [].
Definition ans_direct_choice : dict :=
  respuesta "q3" 3 JNull JNull (JStr uuid_a) [].
Definition ans_undeclared_choice : dict :=
  respuesta "q3" 3 JNull JNull JNull [JStr "zz"].
Definition ans_unknown_choices : dict :=
  respuesta "q4" 4 JNull JNull JNull [JStr "zz"].
Definition ans_no_choices : dict :=
  respuesta "q4" 4 JNull JNull JNull [].
Definition ans_mixed_choices : dict :=
  respuesta "q4" 4 (JStr "x") JNull JNull [JStr uuid_b; JStr "zz"; JStr uuid_a].
Definition ans_kept_choices : dict :=
  respuesta "q4" 4 JNull JNull JNull [JStr uuid_b; JStr uuid_a].

Definition upload (ct name : string) : UploadFile :=
  {| content_type := Some ct; filename := Some name; contents := "RIFF" |}.

(** A world in which the speech and language services answer, given
    the two answers of the backend. *)
Definition demo_world (got : get_reply) (posted : post_reply) : world :=
  {| backend_get := fun _ => got;
     whisper := fun _ _ => Some "me llamo Ana";
     gpt := fun _ _ =>
       GptContent
         (Some (respuestas [respuesta "q1" 1 (JStr "Ana") JNull JNull []]));
     backend_post := fun _ _ => posted |}.

Definition named_upload : UploadFile := upload "audio/wav" (uuid_a ++ ".wav").
Definition bare_upload : UploadFile := upload "audio/wav" uuid_a.
Definition misnamed_upload : UploadFile := upload "audio/wav" "not-a-uuid.wav".

Definition world_backend_400 : world :=
  demo_world (GetReplied 400 "no existe" None) (PostReplied JNull).
Definition world_ok : world :=
  demo_world (GetReplied 200 "" (Some demo_plantilla)) (PostReplied JNull).

Definition demo_payload : json :=
  JDict [("respuestas_preguntas",
           JList [JDict [("pregunta_id", JStr "q1"); ("texto", JStr "Ana")]])].

(** ** [_safe_suffix] and [transcribe_openai] *)

(** Modelled from the Python standard library, whose code is not part of
    this repository: [os.path.splitext] on a POSIX path looks for the
    last dot after the last slash and takes the text from that dot as
    the extension, unless only dots precede it in the file name. *)

Fixpoint has_char (c : ascii) (s : string) : bool :=
  match s with
  | EmptyString => false
  | String a rest => (Ascii.eqb a c || has_char c rest)%bool
  end.

(** [s.rfind(c)]: the index of the last [c], or -1. *)
Fixpoint rfind (c : ascii) (s : string) : Z :=
  match s with
  | EmptyString => -1
  | String a rest =>
      let r := rfind c rest in
      if 0 <=? r then r + 1 else if Ascii.eqb a c then 0 else -1
  end.

Definition splitext (p : string) : string * string :=
  let sepIndex := rfind "/" p in
  let dotIndex := rfind "." p in
  if sepIndex <? dotIndex then
    let name_start := Z.to_nat (sepIndex + 1) in
    let dot := Z.to_nat dotIndex in
    if negb (String.eqb (lstrip_by (Ascii.eqb ".")
                           (String.substring name_start (dot - name_start) p))
               "")
    then (String.substring 0 dot p,
          String.substring dot (String.length p - dot) p)
    else (p, "")
  else (p, "").

(** The extensions of line 39. *)
Definition audio_suffixes : list string :=
  [".flac"; ".m4a"; ".mp3"; ".mp4"; ".mpeg"; ".mpga"; ".oga"; ".ogg";
   ".wav"; ".webm"].

(** Lines 37-41. *)
Definition _safe_suffix (filename : string) : string :=
  let ext := lower (snd (splitext filename)) in
  if existsb (String.eqb ext) audio_suffixes then ext else ".wav".






(** ** The [POST /whisper-test] handler *)

(** How a [/whisper-test] request ends. *)
Inductive test_response : Type :=
| TestNotAudio
| TestFailed
| TestUnhandled
| TestOk (content : json).

Definition test_status (r : test_response) : Z :=
  match r with
  | TestNotAudio => 400
  | TestFailed => 500
  | TestUnhandled => 500
  | TestOk _ => 200
  end.

(** Lines 190-201.  A missing filename makes [transcribe_openai] raise
    inside the [try]. *)
Definition whisper_test (w : world) (file : UploadFile) : test_response :=
  match content_type file with
  | None => TestUnhandled
  | Some ct =>
      if negb (String.prefix "audio/" ct) then TestNotAudio
      else
        match filename file with
        | None => TestFailed
        | Some name =>
            match whisper w (contents file) name with
            | None => TestFailed
            | Some texto =>
                TestOk (JDict [("filename", JStr name);
                               ("transcripcion", JStr texto)])
            end
        end
  end.

(** A question whose ['id'] is a string. *)
Definition string_id (p : json) : option string :=
  match py_getitem p "id" with
  | Ok (JStr k) => Some k
  | _ => None
  end.

(** An index all of whose keys are strings. *)
Definition string_keys (m : index) : Prop :=
  Forall (fun kv => exists k, fst kv = JStr k) m.

(** The keys a row sent to the backend can have. *)
Definition row_keys : list string :=
  ["pregunta_id"; "texto"; "numero"; "opcion_id"].

(** The rows of a payload. *)
Definition rows_of (payload : json) : list json := answers_of payload.

(** ** More example data *)

Definition ans_unknown_type : dict :=
  respuesta "q1" 9 (JStr "hola") JNull JNull [].
Definition ans_alias : dict :=
  [("id", JStr "q1"); ("tipo_pregunta_id", JInt 1); ("texto", JStr "Ana")].
Definition ans_renamed : dict :=
  [("tipo_pregunta_id", JInt 1); ("texto", JStr "Ana");
   ("pregunta_id", JStr "q1")].
Definition ans_anonymous : dict := [("texto", JStr "x")].
Definition ans_number_and_text : dict :=
  respuesta "q2" 2 (JStr "treinta") (JInt 30) JNull [].

Definition q_apellido : json := pregunta "q1" "Apellido" 1 [].

Definition payload_three_rows : json :=
  JDict [("respuestas_preguntas",
           JList [JDict [("pregunta_id", JStr "q4"); ("opcion_id", JStr uuid_b)];
                  JDict [("pregunta_id", JStr "q4"); ("opcion_id", JStr uuid_a)];
                  JDict [("pregunta_id", JStr "q2"); ("numero", JInt 0)]])].

Definition demo_content : json :=
  JDict [("entrega_id", JStr uuid_a);
         ("transcripcion", JStr "me llamo Ana");
         ("payload_enviado", demo_payload);
         ("respuesta_backend", JNull)].





(** An upload whose filename, if any, is made of ASCII characters. *)
Definition ascii_named (file : UploadFile) : bool :=
  match filename file with
  | Some name => ascii_only name
  | None => true
  end.




(** * Properties *)

(** ** Dictionaries *)

Section DictFacts.

Variables (k k' : string) (v : json).

Lemma lookup_dset_same (d : dict) : lookup k (dset k v d) = Some v.
Proof.
  induction d as [|[k0 v0] d IH]; simpl.
  - now rewrite String.eqb_refl.
  - destruct (String.eqb k k0) eqn:E; simpl; rewrite E; auto.
Qed.

Hypothesis Hkk : k <> k'.

Lemma lookup_dset_other (d : dict) : lookup k (dset k' v d) = lookup k d.
Proof.
  apply String.eqb_neq in Hkk.
  induction d as [|[k0 v0] d IH]; simpl.
  - now rewrite Hkk.
  - destruct (String.eqb k' k0) eqn:E; simpl.
    + apply String.eqb_eq in E; subst k0. now rewrite Hkk.
    + now rewrite IH.
Qed.

Lemma lookup_dpop_other (d : dict) : lookup k (dpop k' d) = lookup k d.
Proof.
  apply String.eqb_neq in Hkk.
  induction d as [|[k0 v0] d IH]; simpl; auto.
  destruct (String.eqb k' k0) eqn:E; simpl.
  - apply String.eqb_eq in E; subst k0. now rewrite Hkk.
  - now rewrite IH.
Qed.

End DictFacts.

Lemma dget_dset_same k v d : dget k (dset k v d) = v.
Proof. unfold dget, dget_or. now rewrite lookup_dset_same. Qed.

Lemma dget_or_dset_same k v dflt d : dget_or k dflt (dset k v d) = v.
Proof. unfold dget_or. now rewrite lookup_dset_same. Qed.

Lemma dget_dset_other k k' v d : k <> k' -> dget k (dset k' v d) = dget k d.
Proof. intros H. unfold dget, dget_or. now rewrite lookup_dset_other. Qed.

Lemma dget_lookup k d d' : lookup k d' = lookup k d -> dget k d' = dget k d.
Proof. intros H. unfold dget, dget_or. now rewrite H. Qed.

Lemma dget_some k d x : lookup k d = Some x -> dget k d = x.
Proof. intros H. unfold dget, dget_or. now rewrite H. Qed.

Lemma truthy_dget_lookup k d :
  truthy (dget k d) = true -> lookup k d = Some (dget k d).
Proof.
  unfold dget, dget_or. destruct (lookup k d); simpl; congruence.
Qed.

Create Rewrite HintDb dict.
#[local] Hint Rewrite lookup_dset_same dget_dset_same dget_or_dset_same : dict.
#[local] Hint Rewrite lookup_dset_other lookup_dpop_other dget_dset_other
  using discriminate : dict.

Ltac dict := autorewrite with dict in *.

(** ** Comparison with the type tags *)

Lemma float_eq_Z_inj f a b :
  float_eq_Z f a = true -> float_eq_Z f b = true -> a = b.
Proof.
  destruct f as [s| s | |s m e]; simpl; try discriminate.
  - intros Ha Hb. apply Z.eqb_eq in Ha, Hb. congruence.
  - destruct (0 <=? e) eqn:E; intros Ha Hb; apply Z.eqb_eq in Ha, Hb.
    + congruence.
    + apply Z.leb_gt in E.
      assert (0 < 2 ^ (- e)) by (apply Z.pow_pos_nonneg; lia).
      apply Z.mul_reg_r with (p := 2 ^ (- e)); lia.
Qed.

Lemma eq_int_inj v a b : eq_int v a = true -> eq_int v b = true -> a = b.
Proof.
  destruct v; simpl; try discriminate.
  - intros Ha Hb. apply Z.eqb_eq in Ha, Hb. congruence.
  - intros Ha Hb. apply Z.eqb_eq in Ha, Hb. congruence.
  - apply float_eq_Z_inj.
Qed.

Lemma eq_int_other v a b : eq_int v a = true -> a <> b -> eq_int v b = false.
Proof.
  intros Ha Hab. destruct (eq_int v b) eqn:E; auto.
  elim Hab. eapply eq_int_inj; eauto.
Qed.

(** ** The steps of [sanitize_answers], field by field *)

Lemma resolve_alias_other k d :
  k <> "pregunta_id" -> k <> "id" ->
  lookup k (resolve_alias d) = lookup k d.
Proof.
  intros H1 H2. unfold resolve_alias.
  destruct (_ && _)%bool; auto.
  now rewrite lookup_dset_other, lookup_dpop_other.
Qed.

(** Each of the first two rules leaves the entry alone or clears its
    text. *)
Lemma rule_free_text_cases tipo preg d d' :
  rule_free_text tipo preg d = Ok d' -> d' = d \/ d' = dset "texto" JNull d.
Proof.
  unfold rule_free_text.
  destruct (_ && _)%bool; [|intros [= <-]; auto].
  destruct (py_str _); simpl; [|discriminate].
  destruct (py_get _ _ _); simpl; [|discriminate].
  destruct (py_str _); simpl; [|discriminate].
  destruct (String.eqb _ _); intros [= <-]; auto.
Qed.

Lemma rule_numeric_cases tipo d :
  rule_numeric tipo d = d \/ rule_numeric tipo d = dset "texto" JNull d.
Proof. unfold rule_numeric. destruct (_ && _)%bool; auto. Qed.

Lemma rule_free_text_other tipo preg d d' k :
  rule_free_text tipo preg d = Ok d' -> k <> "texto" ->
  lookup k d' = lookup k d.
Proof.
  intros H Hk. apply rule_free_text_cases in H as [->| ->]; auto.
  now rewrite lookup_dset_other.
Qed.

Lemma rule_numeric_other tipo d k :
  k <> "texto" -> lookup k (rule_numeric tipo d) = lookup k d.
Proof.
  intros Hk. destruct (rule_numeric_cases tipo d) as [->| ->]; auto.
  now rewrite lookup_dset_other.
Qed.

Lemma rule_single_choice_skip tipo d :
  eq_int tipo 3 = false -> rule_single_choice tipo d = Ok d.
Proof. unfold rule_single_choice. now intros ->. Qed.

Lemma rule_multi_choice_skip tipo preg d :
  eq_int tipo 4 = false -> rule_multi_choice tipo preg d = Ok d.
Proof. unfold rule_multi_choice. now intros ->. Qed.

Lemma rule_single_choice_other tipo d d' k :
  rule_single_choice tipo d = Ok d' ->
  k <> "texto" -> k <> "opcion_id" -> k <> "opciones_ids" ->
  lookup k d' = lookup k d.
Proof.
  unfold rule_single_choice. intros H H1 H2 H3.
  destruct (eq_int tipo 3); [|injection H as <-; auto].
  destruct (truthy _).
  - destruct (py_getitem0 _); simpl in H; [|discriminate].
    injection H as <-. now rewrite !lookup_dset_other.
  - injection H as <-. now rewrite lookup_dset_other.
Qed.

Lemma rule_multi_choice_other tipo preg d d' k :
  rule_multi_choice tipo preg d = Ok d' ->
  k <> "texto" -> k <> "opciones_ids" ->
  lookup k d' = lookup k d.
Proof.
  unfold rule_multi_choice. intros H H1 H2.
  destruct (eq_int tipo 4); [|injection H as <-; auto].
  destruct (valid_ids _); simpl in H; [|discriminate].
  destruct (py_iter _); simpl in H; [|discriminate].
  destruct (keep_valid _ _); simpl in H; [|discriminate].
  injection H as <-. now rewrite !lookup_dset_other.
Qed.

(** ** The loop body as a whole *)


Lemma mapa_get_hashable m qid :
  hashable qid = true -> mapa_get m qid = Ok (mapa_find qid m).
Proof. unfold mapa_get, check_hashable. now intros ->. Qed.

Lemma mapa_get_inv m qid found :
  mapa_get m qid = Ok found -> hashable qid = true /\ found = mapa_find qid m.
Proof.
  unfold mapa_get, check_hashable.
  destruct (hashable qid); simpl; [|discriminate]. intros [= <-]. auto.
Qed.

Lemma sanitize_dict_inv mapa raw r :
  sanitize_dict mapa raw = Ok (Some r) ->
  let d0 := resolve_alias raw in
  let tipo := dget "tipo_pregunta_id" d0 in
  truthy (answer_id raw) = true /\
  exists found d1 d3,
    mapa_get mapa (answer_id raw) = Ok found /\
    rule_free_text tipo (question_of found) d0 = Ok d1 /\
    rule_single_choice tipo (rule_numeric tipo d1) = Ok d3 /\
    rule_multi_choice tipo (question_of found) d3 = Ok r.
Proof.
  unfold sanitize_dict, answer_id. intros H.
  destruct (truthy (dget "pregunta_id" (resolve_alias raw))); simpl in H;
    [|discriminate].
  split; [reflexivity|].
  destruct (mapa_get _ _) as [found|]; simpl in H; [|discriminate].
  destruct (rule_free_text _ _ _) as [d1|] eqn:E1; simpl in H; [|discriminate].
  destruct (rule_single_choice _ _) as [d3|] eqn:E3; simpl in H; [|discriminate].
  destruct (rule_multi_choice _ _ _) as [d5|] eqn:E5; simpl in H; [|discriminate].
  injection H as <-. exists found, d1, d3. auto.
Qed.

Lemma sanitize_dict_dropped mapa raw :
  truthy (answer_id raw) = false -> sanitize_dict mapa raw = Ok None.
Proof. unfold sanitize_dict, answer_id. now intros ->. Qed.


Lemma rule_free_text_skip tipo preg d :
  eq_int tipo 1 = false -> rule_free_text tipo preg d = Ok d.
Proof. unfold rule_free_text. now intros ->. Qed.

Lemma rule_numeric_skip tipo d :
  eq_int tipo 2 = false -> rule_numeric tipo d = d.
Proof. unfold rule_numeric. now intros ->. Qed.

Lemma sanitize_dict_single_choice mapa raw :
  eq_int (dget "tipo_pregunta_id" raw) 3 = true ->
  truthy (answer_id raw) = true ->
  hashable (answer_id raw) = true ->
  sanitize_dict mapa raw =
  (r <- rule_single_choice (dget "tipo_pregunta_id" raw) (resolve_alias raw) ;;
   Ok (Some r)).
Proof.
  intros Ht Hq Hh. unfold sanitize_dict. unfold answer_id in *.
  rewrite Hq, mapa_get_hashable by assumption; simpl.
  rewrite (dget_lookup "tipo_pregunta_id" raw (resolve_alias raw))
    by (apply resolve_alias_other; discriminate).
  rewrite rule_free_text_skip by (apply (eq_int_other _ 3 1 Ht); lia).
  simpl.
  rewrite rule_numeric_skip by (apply (eq_int_other _ 3 2 Ht); lia).
  destruct (rule_single_choice _ _) as [d3|]; simpl; auto.
  rewrite rule_multi_choice_skip by (apply (eq_int_other _ 3 4 Ht); lia).
  reflexivity.
Qed.

Lemma sanitize_dict_multi_choice mapa raw found :
  eq_int (dget "tipo_pregunta_id" raw) 4 = true ->
  truthy (answer_id raw) = true ->
  mapa_get mapa (answer_id raw) = Ok found ->
  sanitize_dict mapa raw =
  (r <- rule_multi_choice (dget "tipo_pregunta_id" raw) (question_of found)
         (resolve_alias raw) ;;
   Ok (Some r)).
Proof.
  intros Ht Hq Hm. unfold sanitize_dict. unfold answer_id in *.
  rewrite Hq, Hm; simpl.
  rewrite (dget_lookup "tipo_pregunta_id" raw (resolve_alias raw))
    by (apply resolve_alias_other; discriminate).
  rewrite rule_free_text_skip by (apply (eq_int_other _ 4 1 Ht); lia).
  simpl.
  rewrite rule_numeric_skip by (apply (eq_int_other _ 4 2 Ht); lia).
  rewrite rule_single_choice_skip by (apply (eq_int_other _ 4 3 Ht); lia).
  reflexivity.
Qed.

(** The fields no rule writes reach the output as they came. *)
Lemma sanitize_dict_untouched mapa raw r k :
  sanitize_dict mapa raw = Ok (Some r) ->
  ~ In k ["pregunta_id"; "id"; "texto"; "opcion_id"; "opciones_ids"] ->
  lookup k r = lookup k raw.
Proof.
  intros H Hk. simpl in Hk.
  apply sanitize_dict_inv in H as (_ & found & d1 & d3 & _ & H1 & H3 & H5).
  rewrite (rule_multi_choice_other _ _ _ _ k H5) by intuition congruence.
  rewrite (rule_single_choice_other _ _ _ k H3) by intuition congruence.
  rewrite rule_numeric_other by intuition congruence.
  rewrite (rule_free_text_other _ _ _ _ k H1) by intuition congruence.
  apply resolve_alias_other; intuition congruence.
Qed.

Lemma sanitize_dict_tipo mapa raw r :
  sanitize_dict mapa raw = Ok (Some r) ->
  dget "tipo_pregunta_id" r = dget "tipo_pregunta_id" raw.
Proof.
  intros H. apply dget_lookup. apply (sanitize_dict_untouched _ _ _ _ H).
  simpl. intuition discriminate.
Qed.

(** ** Free text *)


(** ** Single choice *)

Lemma rule_single_choice_first tipo d x rest :
  eq_int tipo 3 = true ->
  dget "opciones_ids" d = JList (x :: rest) ->
  rule_single_choice tipo d =
  Ok (dset "opciones_ids" (JList [])
        (dset "opcion_id" x (dset "texto" JNull d))).
Proof.
  intros Ht Hl. unfold rule_single_choice.
  rewrite Ht, dget_dset_other, Hl by discriminate. reflexivity.
Qed.

Lemma rule_single_choice_none tipo d :
  eq_int tipo 3 = true ->
  truthy (dget "opciones_ids" d) = false ->
  rule_single_choice tipo d = Ok (dset "texto" JNull d).
Proof.
  intros Ht Hl. unfold rule_single_choice.
  rewrite Ht, dget_dset_other, Hl by discriminate. reflexivity.
Qed.

Lemma single_choice_outcome mapa raw :
  eq_int (dget "tipo_pregunta_id" raw) 3 = true ->
  truthy (answer_id raw) = true ->
  hashable (answer_id raw) = true ->
  (forall x rest,
      dget "opciones_ids" raw = JList (x :: rest) ->
      exists r,
        sanitize_dict mapa raw = Ok (Some r) /\
        dget "opcion_id" r = x /\
        dget "texto" r = JNull /\
        dget "opciones_ids" r = JList []) /\
  (truthy (dget "opciones_ids" raw) = false ->
   exists r,
     sanitize_dict mapa raw = Ok (Some r) /\
     lookup "opcion_id" r = lookup "opcion_id" raw /\
     dget "texto" r = JNull /\
     lookup "opciones_ids" r = lookup "opciones_ids" raw).
Proof.
  intros Ht Hq Hh.
  rewrite (sanitize_dict_single_choice _ _ Ht Hq Hh).
  assert (Hl : dget "opciones_ids" (resolve_alias raw)
               = dget "opciones_ids" raw)
    by (apply dget_lookup, resolve_alias_other; discriminate).
  split.
  - intros x rest Hx. rewrite <- Hl in Hx.
    rewrite (rule_single_choice_first _ _ _ _ Ht Hx). simpl.
    eexists; split; [reflexivity|]. now dict.
  - intros Hx. rewrite <- Hl in Hx.
    rewrite (rule_single_choice_none _ _ Ht Hx). simpl.
    eexists; split; [reflexivity|]. dict.
    rewrite !resolve_alias_other by discriminate. auto.
Qed.

(** C5, as the code has it.  For a SINGLE_CHOICE answer with a list of
    at least one id the entry gets the first id as its single choice,
    no text and an empty list.  With no id in the list the text is
    cleared and the single-choice field stays what the raw answer gave:
    unset only if the raw answer did not set it. *)
Theorem single_choice_takes_first_id mapa raw :
  eq_int (dget "tipo_pregunta_id" raw) 3 = true ->
  truthy (answer_id raw) = true ->
  hashable (answer_id raw) = true ->
  (forall x rest,
      dget "opciones_ids" raw = JList (x :: rest) ->
      exists r,
        sanitize_dict mapa raw = Ok (Some r) /\
        dget "opcion_id" r = x /\
        dget "texto" r = JNull /\
        dget "opciones_ids" r = JList []) /\
  (truthy (dget "opciones_ids" raw) = false ->
   exists r,
     sanitize_dict mapa raw = Ok (Some r) /\
     lookup "opcion_id" r = lookup "opcion_id" raw /\
     dget "texto" r = JNull /\
     lookup "opciones_ids" r = lookup "opciones_ids" raw).
Proof. exact (single_choice_outcome mapa raw). Qed.

(** ** Multiple choice *)


Lemma keep_valid_inv valid ids kept :
  keep_valid valid ids = Ok kept -> kept = filter (declared valid) ids.
Proof.
  revert kept. induction ids as [|oid ids IH]; simpl; intros kept H.
  - now injection H as <-.
  - unfold py_in, check_hashable in H.
    destruct (hashable oid); simpl in H; [|discriminate].
    destruct (keep_valid valid ids) as [kept'|]; simpl in H; [|discriminate].
    injection H as <-. rewrite (IH kept' eq_refl). reflexivity.
Qed.

Lemma keep_valid_hashable valid ids :
  forallb hashable ids = true ->
  keep_valid valid ids = Ok (filter (declared valid) ids).
Proof.
  induction ids as [|oid ids IH]; simpl; intros H; auto.
  apply andb_prop in H as [Ho Hr].
  unfold py_in, check_hashable. rewrite Ho, (IH Hr). reflexivity.
Qed.


Lemma rule_multi_choice_inv tipo preg d r :
  eq_int tipo 4 = true ->
  rule_multi_choice tipo preg d = Ok r ->
  exists valid ids,
    valid_ids preg = Ok valid /\
    py_iter (dget_or "opciones_ids" (JList []) d) = Ok ids /\
    r = dset "opciones_ids" (JList (filter (declared valid) ids))
          (dset "texto" JNull d).
Proof.
  unfold rule_multi_choice. intros -> H.
  destruct (valid_ids preg) as [valid|]; simpl in H; [|discriminate].
  assert (E : dget_or "opciones_ids" (JList []) (dset "texto" JNull d)
              = dget_or "opciones_ids" (JList []) d).
  { unfold dget_or. now rewrite lookup_dset_other by discriminate. }
  rewrite E in H.
  destruct (py_iter _) as [ids|]; simpl in H; [|discriminate].
  destruct (keep_valid valid ids) as [kept|] eqn:K; simpl in H; [|discriminate].
  injection H as <-. apply keep_valid_inv in K. subst kept.
  exists valid, ids. auto.
Qed.

(** C10.  A SINGLE_CHOICE selection is not checked against the options
    of its question: the first id of a non-empty list becomes the single
    choice although the template does not declare it, and with an empty
    or missing list the single-choice field passes through as given.  A
    MULTI_CHOICE answer, in contrast, keeps declared ids only. *)
Theorem single_choice_is_not_validated mapa raw found valid :
  eq_int (dget "tipo_pregunta_id" raw) 3 = true ->
  truthy (answer_id raw) = true ->
  mapa_get mapa (answer_id raw) = Ok found ->
  valid_ids (question_of found) = Ok valid ->
  (forall x rest,
      dget "opciones_ids" raw = JList (x :: rest) ->
      declared valid x = false ->
      exists r,
        sanitize_dict mapa raw = Ok (Some r) /\ dget "opcion_id" r = x) /\
  (truthy (dget "opciones_ids" raw) = false ->
   exists r,
     sanitize_dict mapa raw = Ok (Some r) /\
     lookup "opcion_id" r = lookup "opcion_id" raw) /\
  (forall raw4 r4 ids oid,
      eq_int (dget "tipo_pregunta_id" raw4) 4 = true ->
      answer_id raw4 = answer_id raw ->
      sanitize_dict mapa raw4 = Ok (Some r4) ->
      dget "opciones_ids" r4 = JList ids ->
      In oid ids -> declared valid oid = true).
Proof.
  intros Ht Hq Hm Hv.
  destruct (mapa_get_inv _ _ _ Hm) as [Hh _].
  destruct (single_choice_outcome mapa raw Ht Hq Hh) as [Hfirst Hnone].
  split; [|split].
  - intros x rest Hx _.
    destruct (Hfirst x rest Hx) as (r & Hr & Ho & _). eauto.
  - intros Hx. destruct (Hnone Hx) as (r & Hr & Ho & _). eauto.
  - intros raw4 r4 ids oid Ht4 Hid H4 Hids Hin.
    assert (Hq4 : truthy (answer_id raw4) = true) by now rewrite Hid.
    rewrite <- Hid in Hm.
    rewrite (sanitize_dict_multi_choice _ _ _ Ht4 Hq4 Hm) in H4.
    destruct (rule_multi_choice _ _ _) as [r|] eqn:E; simpl in H4;
      [|discriminate].
    injection H4 as ->.
    apply (rule_multi_choice_inv _ _ _ _ Ht4) in E
      as (valid' & ids' & Hv' & _ & ->).
    rewrite Hv in Hv'. injection Hv' as <-.
    rewrite dget_dset_same in Hids. injection Hids as <-.
    now apply filter_In in Hin.
Qed.

(** ** The payload builder *)

Lemma numero_given_spec v :
  numero_given v = true <-> v <> JNull /\ v <> JStr "".
Proof.
  destruct v; simpl; try (split; [intros _; split; discriminate | reflexivity]).
  - split; [discriminate | intros [H _]; congruence].
  - destruct s; simpl.
    + split; [discriminate | intros [_ H]; congruence].
    + split; [intros _; split; discriminate | reflexivity].
Qed.

Lemma base_record_ok r pid :
  lookup "pregunta_id" r = Some pid ->
  exists base,
    base_record r = Ok base /\
    lookup "pregunta_id" base = Some pid /\
    lookup "numero" base =
      (if numero_given (dget "numero" r) then Some (dget "numero" r)
       else None).
Proof.
  intros Hp. unfold base_record. simpl. rewrite Hp. simpl.
  eexists; split; [reflexivity|].
  destruct (truthy (dget "texto" r)), (numero_given (dget "numero" r)),
    (truthy (dget "opcion_id" r)); simpl; auto.
Qed.

Lemma base_record_numero r pid :
  lookup "pregunta_id" r = Some pid ->
  exists base,
    base_record r = Ok base /\
    (forall v, lookup "numero" base = Some v <->
               lookup "numero" r = Some v /\ v <> JNull /\ v <> JStr "") /\
    (lookup "numero" r = Some (JInt 0) ->
     lookup "numero" base = Some (JInt 0)) /\
    (lookup "numero" r = None \/ lookup "numero" r = Some JNull \/
     lookup "numero" r = Some (JStr "") ->
     lookup "numero" base = None).
Proof.
  intros Hp. destruct (base_record_ok r pid Hp) as (base & Hb & _ & Hn).
  exists base. split; [exact Hb|]. rewrite Hn. clear Hb Hn.
  unfold dget, dget_or. split; [|split].
  - intros v. destruct (lookup "numero" r) as [n|]; simpl.
    + destruct (numero_given n) eqn:E.
      * apply numero_given_spec in E. split.
        -- intros [= <-]. tauto.
        -- intros [H _]. exact H.
      * split; [discriminate|]. intros ([= <-] & H).
        apply numero_given_spec in H. congruence.
    + split; [discriminate | intros [H _]; discriminate].
  - intros ->. reflexivity.
  - intros [-> | [-> | ->]]; reflexivity.
Qed.

Lemma rows_of_answer_list d pid ids :
  lookup "pregunta_id" d = Some pid ->
  lookup "opciones_ids" d = Some (JList ids) ->
  exists base,
    base_record d = Ok base /\
    rows_of_answer (JDict d) =
    Ok (match ids with
        | [] => [JDict base]
        | _ => map (fun oid => JDict (dset "opcion_id" oid base)) ids
        end).
Proof.
  intros Hp Hl. destruct (base_record_ok d pid Hp) as (base & Hb & _).
  exists base. split; [exact Hb|].
  unfold rows_of_answer. rewrite Hb. simpl.
  rewrite (dget_some _ _ _ Hl). destruct ids; reflexivity.
Qed.

Lemma build_backend_payload_one a rows :
  rows_of_answer a = Ok rows ->
  build_backend_payload (JDict [("respuestas_preguntas", JList [a])])
  = Ok (JDict [("respuestas_preguntas", JList rows)]).
Proof.
  intros H. unfold build_backend_payload, dget_or; simpl.
  rewrite H. simpl. now rewrite app_nil_r.
Qed.

Lemma sanitize_dict_id mapa raw r :
  sanitize_dict mapa raw = Ok (Some r) ->
  lookup "pregunta_id" r = Some (answer_id raw) /\
  truthy (answer_id raw) = true.
Proof.
  intros H.
  apply sanitize_dict_inv in H as (Hq & found & d1 & d3 & _ & H1 & H3 & H5).
  split; [|exact Hq].
  rewrite (rule_multi_choice_other _ _ _ _ _ H5) by discriminate.
  rewrite (rule_single_choice_other _ _ _ _ H3) by discriminate.
  rewrite rule_numeric_other by discriminate.
  rewrite (rule_free_text_other _ _ _ _ _ H1) by discriminate.
  now apply truthy_dget_lookup.
Qed.

Lemma sanitize_dict_multi_list mapa raw r :
  sanitize_dict mapa raw = Ok (Some r) ->
  eq_int (dget "tipo_pregunta_id" r) 4 = true ->
  exists ids, lookup "opciones_ids" r = Some (JList ids).
Proof.
  intros H Ht. rewrite (sanitize_dict_tipo _ _ _ H) in Ht.
  apply sanitize_dict_inv in H as (_ & found & d1 & d3 & _ & _ & _ & H5).
  rewrite (dget_lookup "tipo_pregunta_id" raw (resolve_alias raw)) in H5
    by (apply resolve_alias_other; discriminate).
  apply (rule_multi_choice_inv _ _ _ _ Ht) in H5 as (valid & ids & _ & _ & ->).
  eexists. now dict.
Qed.

(** C2, as the code has it.  A normalized MULTI_CHOICE answer with a
    non-empty list of choice ids yields one row per id, the base record
    with its single-choice field set to that id, in the order of the
    list; with an empty list it yields one row, the base record. *)
Theorem multi_choice_rows mapa raw r :
  sanitize_dict mapa raw = Ok (Some r) ->
  eq_int (dget "tipo_pregunta_id" r) 4 = true ->
  exists ids base rows,
    lookup "opciones_ids" r = Some (JList ids) /\
    base_record r = Ok base /\
    rows_of_answer (JDict r) = Ok rows /\
    rows = match ids with
           | [] => [JDict base]
           | _ => map (fun oid => JDict (dset "opcion_id" oid base)) ids
           end /\
    List.length rows = Nat.max 1 (List.length ids) /\
    build_backend_payload (JDict [("respuestas_preguntas", JList [JDict r])])
    = Ok (JDict [("respuestas_preguntas", JList rows)]).
Proof.
  intros H Ht.
  destruct (sanitize_dict_multi_list _ _ _ H Ht) as [ids Hl].
  destruct (sanitize_dict_id _ _ _ H) as [Hp _].
  destruct (rows_of_answer_list _ _ _ Hp Hl) as (base & Hb & Hr).
  exists ids, base. eexists.
  refine (conj Hl (conj Hb (conj Hr (conj eq_refl (conj _ _))))).
  - destruct ids; simpl; auto. now rewrite length_map.
  - exact (build_backend_payload_one _ _ Hr).
Qed.

(** ** From the loop body to [sanitize_answers] *)

Lemma for_each_In {A B} (f : A -> result (list B)) xs ys y :
  for_each f xs = Ok ys -> In y ys ->
  exists x l, In x xs /\ f x = Ok l /\ In y l.
Proof.
  revert ys. induction xs as [|x xs IH]; simpl; intros ys H Hy.
  - injection H as <-. destruct Hy.
  - destruct (f x) as [l|] eqn:Ex; simpl in H; [|discriminate].
    destruct (for_each f xs) as [zs|]; simpl in H; [|discriminate].
    injection H as <-. apply in_app_or in Hy as [Hy|Hy].
    + exists x, l. auto.
    + destruct (IH zs eq_refl Hy) as (x' & l' & Hx & Hf & Hl).
      exists x', l'. auto.
Qed.

Lemma sanitize_item_inv mapa x l a :
  sanitize_item mapa x = Ok l -> In a l ->
  exists raw r, x = JDict raw /\ a = JDict r /\
                sanitize_dict mapa raw = Ok (Some r).
Proof.
  destruct x; simpl; try discriminate.
  destruct (sanitize_dict mapa d) as [[r|]|] eqn:E; simpl; try discriminate.
  - intros [= <-] [<-|[]]. exists d, r. auto.
  - intros [= <-] [].
Qed.

Lemma answers_of_dset dep d :
  answers_of (JDict (dset "respuestas_preguntas" (JList dep) d)) = dep.
Proof. unfold answers_of. now rewrite dget_or_dset_same. Qed.

Lemma sanitize_answers_inv data plantilla out :
  sanitize_answers data plantilla = Ok out ->
  exists mapa d dep,
    build_mapa plantilla = Ok mapa /\
    data = JDict d /\
    for_each (sanitize_item mapa) (answers_of data) = Ok dep /\
    out = JDict (dset "respuestas_preguntas" (JList dep) d) /\
    answers_of out = dep.
Proof.
  unfold sanitize_answers. intros H.
  destruct (build_mapa plantilla) as [mapa|]; simpl in H; [|discriminate].
  destruct data; try discriminate.
  destruct (py_iter _) as [items|] eqn:Ei; simpl in H; [|discriminate].
  destruct (for_each _ _) as [dep|] eqn:Ed; simpl in H; [|discriminate].
  injection H as <-. exists mapa, d, dep.
  refine (conj eq_refl (conj eq_refl (conj _ (conj eq_refl _)))).
  - unfold answers_of. now rewrite Ei.
  - unfold answers_of. now rewrite dget_or_dset_same.
Qed.

Lemma sanitize_answers_In data plantilla out a :
  sanitize_answers data plantilla = Ok out -> In a (answers_of out) ->
  exists mapa raw r,
    build_mapa plantilla = Ok mapa /\
    In (JDict raw) (answers_of data) /\
    a = JDict r /\
    sanitize_dict mapa raw = Ok (Some r).
Proof.
  intros H Ha.
  apply sanitize_answers_inv in H as (mapa & d & dep & Hm & _ & Hd & _ & Ho).
  rewrite Ho in Ha.
  destruct (for_each_In _ _ _ _ Hd Ha) as (x & l & Hx & Hf & Hl).
  destruct (sanitize_item_inv _ _ _ _ Hf Hl) as (raw & r & -> & -> & Hr).
  exists mapa, raw, r. auto.
Qed.

Lemma for_each_flat_map {A B} (f : A -> result (list B)) xs ys :
  for_each f xs = Ok ys ->
  ys = flat_map (fun x => match f x with Ok l => l | Raise _ => [] end) xs.
Proof.
  revert ys. induction xs as [|x xs IH]; simpl; intros ys H.
  - now injection H as <-.
  - destruct (f x) as [l|]; simpl in H; [|discriminate].
    destruct (for_each f xs) as [zs|]; simpl in H; [|discriminate].
    injection H as <-. now rewrite <- (IH zs eq_refl).
Qed.

(** The output lists, in the order of the input, what the loop body
    gives for each entry. *)
Lemma sanitize_answers_in_order data plantilla out :
  sanitize_answers data plantilla = Ok out ->
  exists mapa,
    build_mapa plantilla = Ok mapa /\
    answers_of out =
    flat_map (fun x => match sanitize_item mapa x with
                       | Ok l => l
                       | Raise _ => []
                       end) (answers_of data).
Proof.
  intros H.
  apply sanitize_answers_inv in H as (mapa & d & dep & Hm & _ & Hd & _ & ->).
  exists mapa. split; [exact Hm|]. exact (for_each_flat_map _ _ _ Hd).
Qed.

(** ** Which fields a normalized answer can carry *)

Lemma rule_single_choice_clears tipo d d' :
  eq_int tipo 3 = true ->
  rule_single_choice tipo d = Ok d' ->
  dget "texto" d' = JNull /\ truthy (dget "opciones_ids" d') = false.
Proof.
  unfold rule_single_choice. intros -> H.
  destruct (truthy (dget "opciones_ids" (dset "texto" JNull d))) eqn:E.
  - destruct (py_getitem0 _); simpl in H; [|discriminate].
    injection H as <-. now dict.
  - injection H as <-. split; [now dict | exact E].
Qed.

Lemma sanitize_dict_fields mapa raw r :
  sanitize_dict mapa raw = Ok (Some r) ->
  let tipo := dget "tipo_pregunta_id" r in
  (eq_int tipo 3 = true \/ eq_int tipo 4 = true -> dget "texto" r = JNull) /\
  (eq_int tipo 2 = true -> dget "numero" r <> JNull ->
   dget "texto" r = JNull) /\
  (eq_int tipo 3 = true -> truthy (dget "opciones_ids" r) = false) /\
  lookup "numero" r = lookup "numero" raw /\
  (eq_int tipo 3 = false -> lookup "opcion_id" r = lookup "opcion_id" raw).
Proof.
  intros H tipo.
  assert (Hnum : lookup "numero" r = lookup "numero" raw).
  { apply (sanitize_dict_untouched _ _ _ _ H). simpl. intuition discriminate. }
  assert (Htipo : tipo = dget "tipo_pregunta_id" (resolve_alias raw)).
  { unfold tipo. rewrite (sanitize_dict_tipo _ _ _ H). symmetry.
    apply dget_lookup, resolve_alias_other; discriminate. }
  apply sanitize_dict_inv in H as (_ & found & d1 & d3 & _ & H1 & H3 & H5).
  rewrite <- Htipo in H1, H3, H5. clearbody tipo.
  refine (conj _ (conj _ (conj _ (conj Hnum _)))).
  - intros [Ht|Ht].
    + rewrite rule_multi_choice_skip in H5
        by (apply (eq_int_other _ 3 4 Ht); lia).
      injection H5 as <-. now apply (rule_single_choice_clears _ _ _ Ht H3).
    + apply (rule_multi_choice_inv _ _ _ _ Ht) in H5 as (? & ? & _ & _ & ->).
      now dict.
  - intros Ht Hn.
    rewrite rule_multi_choice_skip in H5
      by (apply (eq_int_other _ 2 4 Ht); lia).
    rewrite rule_single_choice_skip in H3
      by (apply (eq_int_other _ 2 3 Ht); lia).
    injection H5 as <-. injection H3 as <-.
    assert (Hn1 : dget "numero" d1 = dget "numero" (rule_numeric tipo d1))
      by (symmetry; apply dget_lookup, rule_numeric_other; discriminate).
    unfold rule_numeric in *. rewrite Ht in *. simpl in *.
    destruct (is_none (dget "numero" d1)) eqn:E; simpl in *.
    + elim Hn. now destruct (dget "numero" d1).
    + now dict.
  - intros Ht.
    rewrite rule_multi_choice_skip in H5
      by (apply (eq_int_other _ 3 4 Ht); lia).
    injection H5 as <-. now apply (rule_single_choice_clears _ _ _ Ht H3).
  - intros Ht.
    rewrite (rule_multi_choice_other _ _ _ _ _ H5) by discriminate.
    rewrite rule_single_choice_skip in H3 by assumption.
    injection H3 as <-.
    rewrite rule_numeric_other by discriminate.
    rewrite (rule_free_text_other _ _ _ _ _ H1) by discriminate.
    apply resolve_alias_other; discriminate.
Qed.

(** C1, as the code has it.  In every answer [sanitize_answers]
    returns, the text is null when the type is SINGLE_CHOICE or
    MULTI_CHOICE, or NUMERIC with a number; the list of choice ids is
    empty when the type is SINGLE_CHOICE; the number is the one the raw
    answer had, and so is the single-choice id unless the type is
    SINGLE_CHOICE.  No rule clears a number or a single-choice id. *)
Theorem sanitized_answer_fields data plantilla out a :
  sanitize_answers data plantilla = Ok out ->
  In a (answers_of out) ->
  exists raw r,
    In (JDict raw) (answers_of data) /\
    a = JDict r /\
    let tipo := dget "tipo_pregunta_id" r in
    (eq_int tipo 3 = true \/ eq_int tipo 4 = true ->
     dget "texto" r = JNull) /\
    (eq_int tipo 2 = true -> dget "numero" r <> JNull ->
     dget "texto" r = JNull) /\
    (eq_int tipo 3 = true -> truthy (dget "opciones_ids" r) = false) /\
    lookup "numero" r = lookup "numero" raw /\
    (eq_int tipo 3 = false -> lookup "opcion_id" r = lookup "opcion_id" raw).
Proof.
  intros H Ha.
  destruct (sanitize_answers_In _ _ _ _ H Ha) as (mapa & raw & r & _ & Hin & -> & Hr).
  exists raw, r. refine (conj Hin (conj eq_refl _)).
  exact (sanitize_dict_fields _ _ _ Hr).
Qed.

(** ** [sanitize_answers] returns on well-shaped input *)

Lemma wf_pregunta_preg p : wf_pregunta p = true -> wf_preg p = true.
Proof.
  destruct p; simpl; try discriminate.
  intros H. apply andb_prop in H as [H H3]. apply andb_prop in H as [_ H2].
  now rewrite H2, H3.
Qed.

Lemma wf_pregunta_id p :
  wf_pregunta p = true ->
  exists k, py_getitem p "id" = Ok k /\ hashable k = true.
Proof.
  destruct p; simpl; try discriminate.
  intros H. apply andb_prop in H as [H _]. apply andb_prop in H as [H _].
  unfold has_hashable_id in H. destruct (lookup "id" d); [eauto|discriminate].
Qed.

Lemma mapa_set_wf k p m :
  wf_pregunta p = true -> index_wf m -> index_wf (mapa_set k p m).
Proof.
  intros Hp. induction 1 as [|[k' v'] m Hv Hm IH]; simpl.
  - repeat constructor. exact Hp.
  - destruct (key_eq k k'); constructor; auto.
Qed.

Lemma mapa_find_wf k m p :
  index_wf m -> mapa_find k m = Some p -> wf_pregunta p = true.
Proof.
  induction 1 as [|[k' v'] m Hv Hm IH]; simpl; [discriminate|].
  destruct (key_eq k k'); [intros [= <-]; exact Hv | exact IH].
Qed.

Lemma index_questions_ok ps :
  forallb wf_pregunta ps = true ->
  forall m, index_wf m ->
            exists m', index_questions ps m = Ok m' /\ index_wf m'.
Proof.
  induction ps as [|p ps IH]; simpl; intros H m Hm; [eauto|].
  apply andb_prop in H as [Hp Hps].
  destruct (wf_pregunta_id p Hp) as (k & -> & Hk). simpl.
  unfold check_hashable. rewrite Hk. simpl.
  apply (IH Hps). now apply mapa_set_wf.
Qed.

Lemma build_mapa_ok plantilla :
  wf_plantilla plantilla = true ->
  exists mapa, build_mapa plantilla = Ok mapa /\ index_wf mapa.
Proof.
  destruct plantilla; simpl; try discriminate.
  unfold build_mapa, py_getitem.
  destruct (lookup "preguntas" d) as [[| | | | |ps|]|]; try discriminate.
  intros H. simpl. apply (index_questions_ok ps H). constructor.
Qed.

Lemma question_of_wf mapa qid :
  index_wf mapa -> wf_preg (question_of (mapa_find qid mapa)) = true.
Proof.
  intros Hm. destruct (mapa_find qid mapa) as [p|] eqn:E; simpl; auto.
  destruct (truthy p); auto.
  apply wf_pregunta_preg. eapply mapa_find_wf; eauto.
Qed.

Lemma rule_free_text_ok tipo preg d :
  wf_preg preg = true -> is_text (dget "texto" d) = true ->
  exists d', rule_free_text tipo preg d = Ok d'.
Proof.
  intros Hp Ht. unfold rule_free_text.
  destruct (dget "texto" d) as [| | | |given| |]; try discriminate; simpl.
  - rewrite andb_false_r. eauto.
  - destruct (_ && _)%bool; [|eauto].
    destruct preg as [| | | | | |q]; simpl in *; try discriminate.
    apply andb_prop in Hp as [Hp _]. unfold dget_or.
    destruct (lookup "texto" q) as [[]|]; try discriminate; simpl;
      destruct (String.eqb _ _); eauto.
Qed.

Lemma collect_ids_ok os :
  forallb wf_option os = true -> exists ks, collect_ids os = Ok ks.
Proof.
  induction os as [|o os IH]; simpl; intros H; [eauto|].
  apply andb_prop in H as [Ho Hos].
  destruct o; simpl in Ho; try discriminate.
  unfold has_hashable_id in Ho. simpl.
  destruct (lookup "id" d) as [k|]; [|discriminate]. simpl.
  unfold check_hashable. rewrite Ho. simpl.
  destruct (IH Hos) as [ks ->]. simpl. eauto.
Qed.

Lemma valid_ids_ok preg :
  wf_preg preg = true -> exists valid, valid_ids preg = Ok valid.
Proof.
  destruct preg; simpl; try discriminate. intros H.
  apply andb_prop in H as [_ H]. unfold valid_ids. simpl. unfold dget_or.
  destruct (lookup "opciones" d) as [[| | | | |os|]|]; try discriminate; simpl.
  - now apply collect_ids_ok.
  - eauto.
Qed.

Lemma rule_single_choice_ok tipo d :
  id_list (lookup "opciones_ids" d) = true ->
  exists d', rule_single_choice tipo d = Ok d' /\
             id_list (lookup "opciones_ids" d') = true.
Proof.
  intros H. unfold rule_single_choice.
  destruct (eq_int tipo 3); [|eauto].
  unfold dget, dget_or. rewrite lookup_dset_other by discriminate.
  destruct (lookup "opciones_ids" d) as [[| | | | |[|x ids]|]|] eqn:E;
    try discriminate; simpl;
    (eexists; split; [reflexivity|]); dict; rewrite ?E; auto.
Qed.

Lemma rule_multi_choice_ok tipo preg d :
  wf_preg preg = true ->
  id_list (lookup "opciones_ids" d) = true ->
  exists d', rule_multi_choice tipo preg d = Ok d'.
Proof.
  intros Hp H. unfold rule_multi_choice.
  destruct (eq_int tipo 4); [|eauto].
  destruct (valid_ids_ok preg Hp) as [valid ->]. simpl.
  unfold dget_or. rewrite lookup_dset_other by discriminate.
  destruct (lookup "opciones_ids" d) as [[| | | | |ids|]|];
    try discriminate; simpl.
  - rewrite (keep_valid_hashable _ _ H). simpl. eauto.
  - eauto.
Qed.

Lemma answer_id_cases raw :
  (answer_id raw = dget "pregunta_id" raw \/ answer_id raw = dget "id" raw) /\
  truthy (answer_id raw) = has_id (JDict raw).
Proof.
  unfold answer_id, resolve_alias. simpl.
  destruct (truthy (dget "pregunta_id" raw)) eqn:Ep; simpl; [auto|].
  destruct (truthy (dget "id" raw)) eqn:Ei; simpl; [|auto].
  rewrite dget_dset_same. auto.
Qed.

Lemma sanitize_item_ok mapa a :
  index_wf mapa -> wf_answer a = true ->
  exists l, sanitize_item mapa a = Ok l /\
            List.length l = if has_id a then 1%nat else 0%nat.
Proof.
  intros Hm Ha. destruct a as [| | | | | |raw]; simpl in Ha; try discriminate.
  apply andb_prop in Ha as [Ha Hids]. apply andb_prop in Ha as [Ha Htxt].
  apply andb_prop in Ha as [Hpid Hid].
  destruct (answer_id_cases raw) as [Hcases Hhas].
  unfold sanitize_item.
  destruct (has_id (JDict raw)) eqn:E.
  - assert (Hh : hashable (answer_id raw) = true)
      by (destruct Hcases as [-> | ->]; assumption).
    unfold sanitize_dict. fold (answer_id raw). rewrite Hhas. simpl.
    rewrite (mapa_get_hashable _ _ Hh). simpl.
    set (tipo := dget "tipo_pregunta_id" (resolve_alias raw)).
    set (preg := question_of (mapa_find (answer_id raw) mapa)).
    assert (Hp : wf_preg preg = true) by now apply question_of_wf.
    destruct (rule_free_text_ok tipo preg (resolve_alias raw) Hp) as [d1 H1].
    { rewrite (dget_lookup "texto" raw) by
        (apply resolve_alias_other; discriminate). exact Htxt. }
    rewrite H1. simpl.
    destruct (rule_single_choice_ok tipo (rule_numeric tipo d1)) as (d3 & H3 & Hl3).
    { rewrite rule_numeric_other by discriminate.
      rewrite (rule_free_text_other _ _ _ _ _ H1) by discriminate.
      rewrite resolve_alias_other by discriminate. exact Hids. }
    rewrite H3. simpl.
    destruct (rule_multi_choice_ok tipo preg d3 Hp Hl3) as [d5 ->]. simpl.
    eauto.
  - rewrite sanitize_dict_dropped by congruence. simpl. eauto.
Qed.

Lemma for_each_sanitize_ok mapa items :
  index_wf mapa -> forallb wf_answer items = true ->
  exists dep, for_each (sanitize_item mapa) items = Ok dep /\
              List.length dep = List.length (filter has_id items).
Proof.
  intros Hm. induction items as [|a items IH]; simpl; intros H; [eauto|].
  apply andb_prop in H as [Ha Hr].
  destruct (sanitize_item_ok mapa a Hm Ha) as (l & -> & Hl).
  destruct (IH Hr) as (dep & -> & Hd). simpl.
  eexists; split; [reflexivity|]. rewrite length_app, Hl, Hd.
  destruct (has_id a); reflexivity.
Qed.

(** C3, as the code has it.  On a template and extracted answers of
    the expected shape [sanitize_answers] returns without raising, and
    its output lists one entry for each input entry that names a
    question under either field name. *)
Theorem sanitize_answers_returns_on_well_shaped_input data plantilla :
  wf_plantilla plantilla = true ->
  wf_data data = true ->
  exists out,
    sanitize_answers data plantilla = Ok out /\
    List.length (answers_of out)
    = List.length (filter has_id (answers_of data)).
Proof.
  intros Hp Hd. destruct (build_mapa_ok plantilla Hp) as (mapa & Hm & Hwf).
  unfold sanitize_answers. rewrite Hm. simpl.
  destruct data as [| | | | | |d]; simpl in Hd; try discriminate.
  assert (Hi : exists items,
             dget_or "respuestas_preguntas" (JList []) d = JList items /\
             forallb wf_answer items = true).
  { unfold dget_or.
    destruct (lookup "respuestas_preguntas" d) as [[| | | | |items|]|];
      try discriminate; eauto. }
  destruct Hi as (items & Hi & Hitems).
  unfold answers_of at 2. rewrite Hi. simpl.
  destruct (for_each_sanitize_ok mapa items Hwf Hitems) as (dep & -> & Hl).
  simpl. eexists; split; [reflexivity|].
  now rewrite answers_of_dset.
Qed.

(** ** The handler *)

Lemma fetch_plantilla_status w id r :
  fetch_plantilla w id = inl r ->
  status r = 400 <->
  exists text body, backend_get w id = GetReplied 400 text body.
Proof.
  unfold fetch_plantilla.
  destruct (backend_get w id) as [|code text body].
  - intros [= <-]. simpl. split; [discriminate|]. intros (? & ? & [=]).
  - destruct (code =? 200) eqn:E; simpl.
    + destruct body; [discriminate|]. intros [= <-]. simpl.
      apply Z.eqb_eq in E. subst code.
      split; [discriminate|]. intros (? & ? & [=]).
    + intros [= <-]. simpl. split.
      * intros ->. eauto.
      * intros (? & ? & [= -> _ _]). reflexivity.
Qed.

Lemma prepare_status w file name id r :
  prepare w file name id = inl r ->
  status r = 400 <->
  exists text body, backend_get w id = GetReplied 400 text body.
Proof.
  unfold prepare.
  destruct (fetch_plantilla w id) as [r'|plantilla] eqn:F.
  - intros [= <-]. exact (fetch_plantilla_status _ _ _ F).
  - assert (N : forall text body, backend_get w id <> GetReplied 400 text body).
    { intros text body E. unfold fetch_plantilla in F. rewrite E in F.
      discriminate. }
    assert (R : forall r0 : response,
               status r0 = 500 ->
               @inl response (string * json) r0 = inl r ->
               status r = 400 <->
               exists text body,
                 backend_get w id = GetReplied 400 text body).
    { intros r0 H0 [= <-]. rewrite H0. split; [discriminate|].
      intros (text & body & E). elim (N _ _ E). }
    destruct (py_getitem plantilla "preguntas") as [preguntas|];
      [|now apply R].
    destruct (whisper w (contents file) name) as [transcript|];
      [|now apply R].
    destruct (gpt w preguntas transcript) as [|[raw_json|]];
      try now apply R.
    destruct (sanitize_answers raw_json plantilla) as [ocr_json|];
      [|now apply R].
    destruct (build_backend_payload ocr_json); [discriminate | now apply R].
Qed.

Lemma json_response_status content :
  status (json_response content) = 200 \/ status (json_response content) = 500.
Proof. unfold json_response. destruct (renderable content); simpl; auto. Qed.

Lemma process_status w file name id :
  status (process w file name id) = 400 <->
  exists text body, backend_get w id = GetReplied 400 text body.
Proof.
  unfold process.
  destruct (prepare w file name id) as [r|[transcript payload]] eqn:P.
  - exact (prepare_status _ _ _ _ _ P).
  - split.
    + intros H. destruct (json_response_status
                            (JDict [("entrega_id", JStr id);
                                    ("transcripcion", JStr transcript);
                                    ("payload_enviado", payload);
                                    ("respuesta_backend",
                                      submit w id payload)])) as [E|E];
        rewrite E in H; discriminate.
    + intros (text & body & E).
      unfold prepare, fetch_plantilla in P. rewrite E in P. discriminate.
Qed.

(** C8, as the code has it.  For an upload that carries a content type
    and whose filename is made of ASCII characters, [POST /stt] answers
    400 exactly when the content type does not start with [audio/], or
    the filename up to its first dot does not parse as a UUID, or the
    backend answers the template request with 400.  An upload named
    [not-a-uuid.wav] is answered 400. *)
Theorem stt_answers_400 w file ct :
  content_type file = Some ct ->
  (forall name, filename file = Some name -> ascii_only name = true) ->
  (status (stt_endpoint w file) = 400 <->
   String.prefix "audio/" ct = false \/
   entrega_of file = None \/
   exists id text body,
     entrega_of file = Some id /\
     backend_get w id = GetReplied 400 text body) /\
  (filename file = Some "not-a-uuid.wav" ->
   status (stt_endpoint w file) = 400).
Proof.
  intros Hct _. unfold stt_endpoint. rewrite Hct.
  destruct (String.prefix "audio/" ct) eqn:Ep; simpl.
  - split.
    + unfold entrega_of.
      destruct (filename file) as [name|]; simpl; [|tauto].
      destruct (UUID_ok (before_dot name)); simpl; [|tauto].
      rewrite process_status. split.
      * intros (text & body & E). right. right. eauto.
      * intros [H|[H|(id & text & body & [= <-] & E)]];
          try discriminate; eauto.
    + intros Hn. unfold entrega_of. rewrite Hn. reflexivity.
  - split; [tauto | reflexivity].
Qed.



(** * Examples and counterexamples *)

Example build_mapa_demo : build_mapa demo_plantilla = Ok demo_mapa.
Proof. reflexivity. Qed.

Example UUID_ok_samples :
  UUID_ok "not-a-uuid" = false /\
  UUID_ok uuid_a = true /\
  UUID_ok "urn:uuid:{11111111-1111-1111-1111-111111111111}" = true /\
  UUID_ok "11111111111111111111111111111111" = true /\
  UUID_ok "1111111111111111111111111111111g" = false /\
  UUID_ok "" = false.
Proof. repeat split. Qed.

(** The scenario of the specification: two ids offered for a
    SINGLE_CHOICE question give one row with the first. *)
Example round_trip_single_choice :
  sanitize_answers (respuestas [ans_two_choices]) demo_plantilla
  = Ok (respuestas [ans_first_choice]) /\
  build_backend_payload (respuestas [ans_first_choice])
  = Ok (JDict [("respuestas_preguntas",
                 JList [JDict [("pregunta_id", JStr "q3");
                               ("numero", JInt 7);
                               ("opcion_id", JStr uuid_a)]])]).
Proof. split; reflexivity. Qed.

(** Against C1: a FREE_TEXT answer that also carries a number leaves
    [sanitize_answers] with both fields active. *)
Lemma sanitize_keeps_number_beside_text :
  sanitize_answers (respuestas [ans_text_and_number]) demo_plantilla
  = Ok (respuestas [ans_text_and_number]) /\
  carrier (dget "tipo_pregunta_id" ans_text_and_number) = Some "texto" /\
  active_fields ans_text_and_number = ["texto"; "numero"] /\
  ~ one_field_per_type ans_text_and_number.
Proof.
  repeat split.
  intros H. specialize (H "texto" eq_refl). discriminate H.
Qed.

(** Against C2: a MULTI_CHOICE answer whose ids are all unknown is
    normalized to an empty list, and still yields one row. *)
Lemma unknown_choices_still_emit_one_row :
  sanitize_answers (respuestas [ans_unknown_choices]) demo_plantilla
  = Ok (respuestas [ans_no_choices]) /\
  dget "opciones_ids" ans_no_choices = JList [] /\
  rows_of_answer (JDict ans_no_choices)
  = Ok [JDict [("pregunta_id", JStr "q4")]] /\
  build_backend_payload (respuestas [ans_no_choices])
  = Ok (JDict [("respuestas_preguntas",
                 JList [JDict [("pregunta_id", JStr "q4")]])]) /\
  List.length [JDict [("pregunta_id", JStr "q4")]]
  <> List.length (@nil json).
Proof. repeat split. discriminate. Qed.

(** Against C3: a FREE_TEXT answer whose text is a number makes
    [sanitize_answers] raise, since a number has no [strip]. *)
Lemma sanitize_answers_raises_on_numeric_text :
  sanitize_answers (respuestas [ans_numeric_text]) demo_plantilla
  = Raise AttributeError.
Proof. reflexivity. Qed.

(** Against C5: with an empty list, the single-choice id the raw
    answer gave is still set after sanitizing. *)
Lemma single_choice_id_passes_through :
  dget "opciones_ids" ans_direct_choice = JList [] /\
  sanitize_answers (respuestas [ans_direct_choice]) demo_plantilla
  = Ok (respuestas [ans_direct_choice]) /\
  dget "opcion_id" ans_direct_choice = JStr uuid_a /\
  truthy (dget "opcion_id" ans_direct_choice) = true.
Proof. repeat split. Qed.

(** Against C8: a well-named audio upload is answered 400 when the
    backend answers the template request with 400, and an audio upload
    whose name is a UUID without any extension is answered 200. *)
Lemma stt_400_is_not_only_bad_uploads :
  content_type named_upload = Some "audio/wav" /\
  filename named_upload = Some (uuid_a ++ ".wav") /\
  UUID_ok (before_dot (uuid_a ++ ".wav")) = true /\
  status (stt_endpoint world_backend_400 named_upload) = 400 /\
  filename bare_upload = Some uuid_a /\
  status (stt_endpoint world_ok bare_upload) = 200.
Proof. repeat split. Qed.

(** ** The theorems at concrete inputs *)

Lemma sanitized_answer_fields_witness :
  sanitize_answers (respuestas [ans_two_choices]) demo_plantilla
  = Ok (respuestas [ans_first_choice]) /\
  exists raw r,
    In (JDict raw) (answers_of (respuestas [ans_two_choices])) /\
    JDict ans_first_choice = JDict r /\
    dget "texto" r = JNull /\
    truthy (dget "opciones_ids" r) = false /\
    lookup "numero" r = lookup "numero" raw.
Proof.
  split; [reflexivity|].
  destruct (sanitized_answer_fields
              (respuestas [ans_two_choices]) demo_plantilla
              (respuestas [ans_first_choice]) (JDict ans_first_choice)
              eq_refl (or_introl eq_refl))
    as (raw & r & Hin & Ha & H1 & _ & H3 & H4 & _).
  injection Ha as <-.
  exists raw, ans_first_choice.
  repeat split; [exact Hin | exact H4].
Defined.

Lemma multi_choice_rows_witness :
  sanitize_dict demo_mapa ans_mixed_choices = Ok (Some ans_kept_choices) /\
  exists ids base rows,
    lookup "opciones_ids" ans_kept_choices = Some (JList ids) /\
    base_record ans_kept_choices = Ok base /\
    rows_of_answer (JDict ans_kept_choices) = Ok rows /\
    List.length rows = Nat.max 1 (List.length ids).
Proof.
  split; [reflexivity|].
  destruct (multi_choice_rows demo_mapa ans_mixed_choices ans_kept_choices
              eq_refl eq_refl)
    as (ids & base & rows & H1 & H2 & H3 & _ & H5 & _).
  exists ids, base, rows. auto.
Defined.

Lemma sanitize_answers_returns_witness :
  wf_plantilla demo_plantilla = true /\
  wf_data (respuestas [ans_echo; ans_zero; ans_mixed_choices]) = true /\
  exists out,
    sanitize_answers (respuestas [ans_echo; ans_zero; ans_mixed_choices])
      demo_plantilla = Ok out /\
    List.length (answers_of out) = 3%nat.
Proof.
  split; [reflexivity|]. split; [reflexivity|].
  exact (sanitize_answers_returns_on_well_shaped_input
           (respuestas [ans_echo; ans_zero; ans_mixed_choices])
           demo_plantilla eq_refl eq_refl).
Defined.

Lemma single_choice_takes_first_id_witness :
  exists r,
    sanitize_dict demo_mapa ans_two_choices = Ok (Some r) /\
    dget "opcion_id" r = JStr uuid_a /\
    dget "texto" r = JNull /\
    dget "opciones_ids" r = JList [].
Proof.
  exact (proj1 (single_choice_takes_first_id demo_mapa ans_two_choices
                  eq_refl eq_refl eq_refl)
           (JStr uuid_a) [JStr uuid_b] eq_refl).
Defined.

Lemma single_choice_is_not_validated_witness :
  declared [JStr uuid_a; JStr uuid_b] (JStr "zz") = false /\
  exists r,
    sanitize_dict demo_mapa ans_undeclared_choice = Ok (Some r) /\
    dget "opcion_id" r = JStr "zz".
Proof.
  split; [reflexivity|].
  exact (proj1 (single_choice_is_not_validated demo_mapa ans_undeclared_choice
                  (Some q_color) [JStr uuid_a; JStr uuid_b]
                  eq_refl eq_refl eq_refl eq_refl)
           (JStr "zz") [] eq_refl eq_refl).
Defined.

(** * Further properties of the sanitizer *)

Lemma lookup_dpop_same k d : lookup k (dpop k d) = None.
Proof.
  induction d as [|[k0 v0] d IH]; simpl; auto.
  destruct (String.eqb k k0) eqn:E; simpl; auto. now rewrite E.
Qed.

Lemma dset_same_value k v d : lookup k d = Some v -> dset k v d = d.
Proof.
  induction d as [|[k0 v0] d IH]; simpl; [discriminate|].
  destruct (String.eqb k k0) eqn:E.
  - now intros [= ->].
  - intros H. now rewrite (IH H).
Qed.

Lemma dset_dset k v v' d : dset k v (dset k v' d) = dset k v d.
Proof.
  induction d as [|[k0 v0] d IH]; simpl.
  - now rewrite String.eqb_refl.
  - destruct (String.eqb k k0) eqn:E; simpl; rewrite E; auto.
    now rewrite IH.
Qed.

Lemma resolve_alias_settled d :
  truthy (dget "pregunta_id" d) = true -> resolve_alias d = d.
Proof. unfold resolve_alias. now intros ->. Qed.

(** X1.  An entry whose type tag is none of 1, 2, 3, 4 and whose
    identifier is a non-empty scalar goes through with no rule applied:
    the output entry is the input entry, up to the renaming of ['id']. *)
Theorem unknown_type_passes_through mapa raw :
  eq_int (dget "tipo_pregunta_id" raw) 1 = false ->
  eq_int (dget "tipo_pregunta_id" raw) 2 = false ->
  eq_int (dget "tipo_pregunta_id" raw) 3 = false ->
  eq_int (dget "tipo_pregunta_id" raw) 4 = false ->
  truthy (answer_id raw) = true ->
  hashable (answer_id raw) = true ->
  sanitize_dict mapa raw = Ok (Some (resolve_alias raw)) /\
  (truthy (dget "pregunta_id" raw) = true ->
   sanitize_dict mapa raw = Ok (Some raw)).
Proof.
  intros H1 H2 H3 H4 Hq Hh.
  assert (E : sanitize_dict mapa raw = Ok (Some (resolve_alias raw))).
  { unfold sanitize_dict. unfold answer_id in *.
    rewrite Hq, mapa_get_hashable by assumption; simpl.
    rewrite (dget_lookup "tipo_pregunta_id" raw (resolve_alias raw))
      by (apply resolve_alias_other; discriminate).
    rewrite rule_free_text_skip by assumption. simpl.
    rewrite rule_numeric_skip by assumption.
    rewrite rule_single_choice_skip by assumption. simpl.
    rewrite rule_multi_choice_skip by assumption. reflexivity. }
  split; [exact E|].
  intros Hp. now rewrite E, resolve_alias_settled.
Qed.

Lemma sanitize_dict_keys_of_alias mapa raw r k :
  sanitize_dict mapa raw = Ok (Some r) ->
  k <> "texto" -> k <> "opcion_id" -> k <> "opciones_ids" ->
  lookup k r = lookup k (resolve_alias raw).
Proof.
  intros H K1 K2 K3.
  apply sanitize_dict_inv in H as (_ & found & d1 & d3 & _ & H1 & H3 & H5).
  rewrite (rule_multi_choice_other _ _ _ _ k H5) by assumption.
  rewrite (rule_single_choice_other _ _ _ k H3) by assumption.
  rewrite rule_numeric_other by assumption.
  now rewrite (rule_free_text_other _ _ _ _ k H1) by assumption.
Qed.

(** X2.  In an entry that comes out of the loop body, ['pregunta_id']
    and ['id'] are those of the input when the input had a non-empty
    ['pregunta_id']; otherwise the input had a non-empty ['id'], which
    is now the ['pregunta_id'], and the key ['id'] is gone. *)
Theorem id_alias_is_renamed mapa raw r :
  sanitize_dict mapa raw = Ok (Some r) ->
  if truthy (dget "pregunta_id" raw)
  then lookup "pregunta_id" r = lookup "pregunta_id" raw /\
       lookup "id" r = lookup "id" raw
  else truthy (dget "id" raw) = true /\
       lookup "pregunta_id" r = Some (dget "id" raw) /\
       lookup "id" r = None.
Proof.
  intros H.
  pose proof (sanitize_dict_keys_of_alias _ _ _ "pregunta_id" H) as Hp.
  pose proof (sanitize_dict_keys_of_alias _ _ _ "id" H) as Hi.
  rewrite Hp, Hi by discriminate.
  destruct (sanitize_dict_id _ _ _ H) as [_ Hq].
  unfold answer_id, resolve_alias in *.
  destruct (truthy (dget "pregunta_id" raw)) eqn:E; simpl in *; [auto|].
  destruct (truthy (dget "id" raw)) eqn:E'; simpl in *.
  - rewrite lookup_dset_same, lookup_dset_other, lookup_dpop_same
      by discriminate. auto.
  - congruence.
Qed.

Lemma sanitize_item_length mapa x l :
  sanitize_item mapa x = Ok l ->
  List.length l = (if has_id x then 1%nat else 0%nat) /\
  forall a, In a l ->
            exists r, a = JDict r /\ truthy (dget "pregunta_id" r) = true.
Proof.
  destruct x as [| | | | | |raw]; simpl; try discriminate.
  destruct (answer_id_cases raw) as [_ Hhas]. simpl in Hhas. rewrite <- Hhas.
  destruct (sanitize_dict mapa raw) as [[r|]|] eqn:E; simpl; try discriminate.
  - intros [= <-]. destruct (sanitize_dict_id _ _ _ E) as [Hp Hq].
    rewrite Hq. split; [reflexivity|].
    intros a [<-|[]]. exists r. split; [reflexivity|].
    now rewrite (dget_some _ _ _ Hp).
  - intros [= <-]. split; [|intros a []].
    unfold sanitize_dict, answer_id in *.
    destruct (truthy (dget "pregunta_id" (resolve_alias raw))); [|reflexivity].
    simpl in E. destruct (mapa_get _ _); simpl in E; [|discriminate].
    destruct (rule_free_text _ _ _); simpl in E; [|discriminate].
    destruct (rule_single_choice _ _); simpl in E; [|discriminate].
    destruct (rule_multi_choice _ _ _); simpl in E; discriminate.
Qed.

Lemma for_each_sanitize_length mapa items dep :
  for_each (sanitize_item mapa) items = Ok dep ->
  List.length dep = List.length (filter has_id items).
Proof.
  revert dep. induction items as [|x items IH]; simpl; intros dep H.
  - now injection H as <-.
  - destruct (sanitize_item mapa x) as [l|] eqn:E; simpl in H; [|discriminate].
    destruct (for_each _ items) as [zs|]; simpl in H; [|discriminate].
    injection H as <-. rewrite length_app, (IH zs eq_refl).
    destruct (sanitize_item_length _ _ _ E) as [-> _].
    destruct (has_id x); reflexivity.
Qed.

(** X3.  Whenever [sanitize_answers] returns, its output has one entry
    for each input entry that names a question under ['pregunta_id'] or
    ['id'], and every output entry has a non-empty ['pregunta_id']. *)
Theorem sanitize_answers_keeps_identified_entries data plantilla out :
  sanitize_answers data plantilla = Ok out ->
  List.length (answers_of out)
  = List.length (filter has_id (answers_of data)) /\
  forall a, In a (answers_of out) ->
            exists r, a = JDict r /\ truthy (dget "pregunta_id" r) = true.
Proof.
  intros H. split.
  - apply sanitize_answers_inv in H as (mapa & d & dep & _ & _ & Hd & _ & ->).
    exact (for_each_sanitize_length _ _ _ Hd).
  - intros a Ha.
    destruct (sanitize_answers_In _ _ _ _ H Ha) as (mapa & raw & r & _ & _ & -> & Hr).
    exists r. split; [reflexivity|].
    destruct (sanitize_dict_id _ _ _ Hr) as [Hp Hq].
    now rewrite (dget_some _ _ _ Hp).
Qed.

(** ** Sanitizing twice *)

Lemma rule_free_text_again tipo preg d d' :
  rule_free_text tipo preg d = Ok d' -> rule_free_text tipo preg d' = Ok d'.
Proof.
  intros H. destruct (rule_free_text_cases _ _ _ _ H) as [->| ->]; auto.
  unfold rule_free_text. rewrite dget_dset_same. simpl.
  now rewrite andb_false_r.
Qed.

Lemma rule_numeric_again tipo d :
  rule_numeric tipo (rule_numeric tipo d) = rule_numeric tipo d.
Proof.
  unfold rule_numeric.
  destruct (eq_int tipo 2 && negb (is_none (dget "numero" d)))%bool eqn:E;
    [|now rewrite E].
  rewrite dget_dset_other, E by discriminate. apply dset_dset.
Qed.

Lemma rule_single_choice_again tipo d d' :
  rule_single_choice tipo d = Ok d' -> rule_single_choice tipo d' = Ok d'.
Proof.
  destruct (eq_int tipo 3) eqn:Ht.
  - intros H.
    assert (Hd : dset "texto" JNull d' = d').
    { apply dset_same_value. revert H. unfold rule_single_choice. rewrite Ht.
      destruct (truthy (dget "opciones_ids" (dset "texto" JNull d))).
      - destruct (py_getitem0 _); simpl; [|discriminate].
        intros [= <-]. now dict.
      - intros [= <-]. now dict. }
    destruct (rule_single_choice_clears _ _ _ Ht H) as [_ Hl].
    unfold rule_single_choice. now rewrite Ht, Hd, Hl.
  - rewrite !rule_single_choice_skip by assumption. now intros [= <-].
Qed.

Lemma keep_valid_again valid ids kept :
  keep_valid valid ids = Ok kept -> keep_valid valid kept = Ok kept.
Proof.
  revert kept. induction ids as [|oid ids IH]; simpl; intros kept H.
  - now injection H as <-.
  - unfold py_in, check_hashable in H.
    destruct (hashable oid) eqn:Eh; simpl in H; [|discriminate].
    destruct (keep_valid valid ids) as [kept'|]; simpl in H; [|discriminate].
    injection H as <-. specialize (IH kept' eq_refl).
    destruct (existsb (key_eq oid) valid) eqn:Ev; auto.
    simpl. unfold py_in, check_hashable. now rewrite Eh, IH, Ev.
Qed.

Lemma rule_multi_choice_again tipo preg d d' :
  rule_multi_choice tipo preg d = Ok d' ->
  rule_multi_choice tipo preg d' = Ok d'.
Proof.
  destruct (eq_int tipo 4) eqn:Ht.
  - unfold rule_multi_choice. rewrite Ht. intros H.
    destruct (valid_ids preg) as [valid|]; simpl in *; [|discriminate].
    destruct (py_iter _) as [ids|]; simpl in H; [|discriminate].
    destruct (keep_valid valid ids) as [kept|] eqn:K; simpl in H;
      [|discriminate].
    injection H as <-.
    rewrite (dset_same_value "texto" JNull) by now dict.
    rewrite dget_or_dset_same. simpl.
    rewrite (keep_valid_again _ _ _ K). simpl. now rewrite dset_dset.
  - rewrite !rule_multi_choice_skip by assumption. now intros [= <-].
Qed.

Lemma sanitize_dict_again mapa raw r :
  sanitize_dict mapa raw = Ok (Some r) -> sanitize_dict mapa r = Ok (Some r).
Proof.
  intros H.
  destruct (sanitize_dict_id _ _ _ H) as [Hp Hq].
  pose proof (sanitize_dict_tipo _ _ _ H) as Ht.
  apply sanitize_dict_inv in H as (_ & found & d1 & d3 & Hm & H1 & H3 & H5).
  rewrite (dget_lookup "tipo_pregunta_id" raw (resolve_alias raw)) in H1, H3, H5
    by (apply resolve_alias_other; discriminate).
  rewrite <- Ht in H1, H3, H5.
  assert (Hr : resolve_alias r = r).
  { apply resolve_alias_settled. now rewrite (dget_some _ _ _ Hp). }
  unfold sanitize_dict. rewrite Hr, (dget_some _ _ _ Hp), Hq, Hm. simpl.
  remember (dget "tipo_pregunta_id" r) as tipo eqn:Etipo. clear Etipo Ht.
  remember (question_of found) as preg eqn:Epreg. clear Epreg.
  clear Hp Hq Hm Hr.
  assert (G : rule_free_text tipo preg r = Ok r /\
              rule_numeric tipo r = r /\
              rule_single_choice tipo r = Ok r /\
              rule_multi_choice tipo preg r = Ok r).
  { destruct (eq_int tipo 1) eqn:T1.
    - rewrite rule_multi_choice_skip in H5 |- *
        by (apply (eq_int_other _ 1 4 T1); lia).
      rewrite rule_single_choice_skip in H3 |- *
        by (apply (eq_int_other _ 1 3 T1); lia).
      rewrite rule_numeric_skip in H3 |- *
        by (apply (eq_int_other _ 1 2 T1); lia).
      injection H5 as <-. injection H3 as <-.
      repeat split. exact (rule_free_text_again _ _ _ _ H1).
    - rewrite rule_free_text_skip in H1 |- * by assumption.
      injection H1 as <-.
      destruct (eq_int tipo 2) eqn:T2.
      + rewrite rule_multi_choice_skip in H5 |- *
          by (apply (eq_int_other _ 2 4 T2); lia).
        rewrite rule_single_choice_skip in H3 |- *
          by (apply (eq_int_other _ 2 3 T2); lia).
        injection H5 as <-. injection H3 as <-.
        repeat split. apply rule_numeric_again.
      + rewrite rule_numeric_skip in H3 |- * by assumption.
        destruct (eq_int tipo 3) eqn:T3.
        * rewrite rule_multi_choice_skip in H5 |- *
            by (apply (eq_int_other _ 3 4 T3); lia).
          injection H5 as <-.
          repeat split. exact (rule_single_choice_again _ _ _ H3).
        * rewrite rule_single_choice_skip in H3 |- * by assumption.
          injection H3 as <-.
          repeat split. exact (rule_multi_choice_again _ _ _ _ H5). }
  destruct G as (G1 & G2 & G3 & G4).
  rewrite G1. simpl. rewrite G2, G3. simpl. rewrite G4. reflexivity.
Qed.

Lemma for_each_fixed {A} (f : A -> result (list A)) xs :
  (forall x, In x xs -> f x = Ok [x]) -> for_each f xs = Ok xs.
Proof.
  induction xs as [|x xs IH]; simpl; intros H; auto.
  rewrite (H x (or_introl eq_refl)). simpl.
  rewrite IH by (intros y Hy; apply H; now right). reflexivity.
Qed.

(** X4.  Sanitizing is idempotent: what [sanitize_answers] returns is
    returned unchanged when it is sanitized again against the same
    template. *)
Theorem sanitize_answers_idempotent data plantilla out :
  sanitize_answers data plantilla = Ok out ->
  sanitize_answers out plantilla = Ok out.
Proof.
  intros H.
  assert (Hall : forall a, In a (answers_of out) ->
                           exists mapa raw r,
                             build_mapa plantilla = Ok mapa /\
                             a = JDict r /\
                             sanitize_dict mapa raw = Ok (Some r)).
  { intros a Ha.
    destruct (sanitize_answers_In _ _ _ _ H Ha) as (m & raw & r & ? & _ & ? & ?).
    exists m, raw, r. auto. }
  apply sanitize_answers_inv in H as (mapa & d & dep & Hm & _ & _ & -> & Ho).
  rewrite Ho in Hall.
  unfold sanitize_answers. rewrite Hm. simpl.
  rewrite dget_or_dset_same. simpl.
  rewrite for_each_fixed.
  - simpl. now rewrite dset_dset.
  - intros a Ha. destruct (Hall a Ha) as (m & raw & r & Hm' & -> & Hr).
    rewrite Hm in Hm'. injection Hm' as <-.
    simpl. now rewrite (sanitize_dict_again _ _ _ Hr).
Qed.

(** ** Questions that share an id *)

Lemma mapa_find_set_string m q k v :
  string_keys m ->
  mapa_find (JStr q) (mapa_set (JStr k) v m)
  = if String.eqb q k then Some v else mapa_find (JStr q) m.
Proof.
  induction 1 as [|[k0 v0] m [s Hs] Hm IH]; simpl in *.
  - reflexivity.
  - subst k0. simpl. destruct (String.eqb k s) eqn:E; simpl.
    + apply String.eqb_eq in E. subst s. now destruct (String.eqb q k).
    + rewrite IH. destruct (String.eqb q s) eqn:E'; auto.
      apply String.eqb_eq in E'. subst s.
      rewrite String.eqb_sym in E. now rewrite E.
Qed.

Lemma mapa_set_string_keys m k v :
  string_keys m -> string_keys (mapa_set (JStr k) v m).
Proof.
  induction 1 as [|[k0 v0] m [s Hs] Hm IH]; simpl in *.
  - repeat constructor. now exists k.
  - subst k0. simpl. destruct (String.eqb k s); constructor; simpl; eauto.
Qed.

Lemma index_questions_app xs ys m :
  index_questions (xs ++ ys)%list m
  = (m1 <- index_questions xs m ;; index_questions ys m1).
Proof.
  revert m. induction xs as [|x xs IH]; simpl; intros m; auto.
  destruct (py_getitem x "id") as [k|]; simpl; auto.
  destruct (check_hashable k); simpl; auto.
Qed.

Lemma index_questions_strings ps m qid :
  Forall (fun p => exists k, string_id p = Some k) ps ->
  string_keys m ->
  exists m',
    index_questions ps m = Ok m' /\ string_keys m' /\
    (Forall (fun p => string_id p <> Some qid) ps ->
     mapa_find (JStr qid) m' = mapa_find (JStr qid) m).
Proof.
  intros Hps. revert m.
  induction Hps as [|p ps [k Hk] Hps IH]; simpl; intros m Hm.
  - exists m. auto.
  - unfold string_id in Hk.
    destruct (py_getitem p "id") as [[| | | |k'| |]|] eqn:E; try discriminate.
    injection Hk as ->. simpl.
    destruct (IH (mapa_set (JStr k) p m) (mapa_set_string_keys _ _ _ Hm))
      as (m' & H1 & H2 & H3).
    exists m'. refine (conj H1 (conj H2 _)).
    intros Hne. inversion Hne as [|? ? Hp Hrest]; subst.
    rewrite (H3 Hrest), mapa_find_set_string by assumption.
    unfold string_id in Hp. rewrite E in Hp.
    destruct (String.eqb qid k) eqn:E'; auto.
    apply String.eqb_eq in E'. congruence.
Qed.

(** X5.  When the ids of the questions are strings and several
    questions of the template carry one id, that id resolves to the last
    of them. *)
Theorem last_question_with_an_id_wins d before p after qid :
  lookup "preguntas" d = Some (JList (before ++ p :: after)%list) ->
  Forall (fun q => exists k, string_id q = Some k) before ->
  string_id p = Some qid ->
  Forall (fun q => exists k, string_id q = Some k) after ->
  Forall (fun q => string_id q <> Some qid) after ->
  exists mapa,
    build_mapa (JDict d) = Ok mapa /\
    mapa_get mapa (JStr qid) = Ok (Some p).
Proof.
  intros Hl Hb Hp Ha Hne.
  unfold build_mapa. simpl. rewrite Hl. simpl.
  rewrite index_questions_app.
  destruct (index_questions_strings before [] qid Hb (Forall_nil _))
    as (m1 & -> & Hk1 & _).
  simpl. unfold string_id in Hp.
  destruct (py_getitem p "id") as [[| | | |k'| |]|] eqn:E; try discriminate.
  injection Hp as ->. simpl.
  destruct (index_questions_strings after (mapa_set (JStr qid) p m1) qid Ha
              (mapa_set_string_keys _ _ _ Hk1)) as (m' & -> & _ & Hf).
  exists m'. split; [reflexivity|].
  unfold mapa_get. simpl.
  now rewrite (Hf Hne), mapa_find_set_string, String.eqb_refl.
Qed.

(** * Further properties of the payload builder *)

Lemma base_record_lookup d base k :
  base_record d = Ok base ->
  lookup k base =
  if String.eqb k "pregunta_id" then lookup "pregunta_id" d
  else if String.eqb k "texto"
       then (if truthy (dget "texto" d) then Some (dget "texto" d) else None)
  else if String.eqb k "numero"
       then (if numero_given (dget "numero" d) then Some (dget "numero" d)
             else None)
  else if String.eqb k "opcion_id"
       then (if truthy (dget "opcion_id" d) then Some (dget "opcion_id" d)
             else None)
  else None.
Proof.
  unfold base_record. simpl.
  destruct (lookup "pregunta_id" d) as [pid|]; simpl; [|discriminate].
  intros [= <-].
  destruct (String.eqb_spec k "pregunta_id") as [->|N1];
    [now destruct (truthy (dget "texto" d)),
       (numero_given (dget "numero" d)), (truthy (dget "opcion_id" d))|].
  destruct (String.eqb_spec k "texto") as [->|N2];
    [now destruct (truthy (dget "texto" d)),
       (numero_given (dget "numero" d)), (truthy (dget "opcion_id" d))|].
  destruct (String.eqb_spec k "numero") as [->|N3];
    [now destruct (truthy (dget "texto" d)),
       (numero_given (dget "numero" d)), (truthy (dget "opcion_id" d))|].
  destruct (String.eqb_spec k "opcion_id") as [->|N4];
    [now destruct (truthy (dget "texto" d)),
       (numero_given (dget "numero" d)), (truthy (dget "opcion_id" d))|].
  apply String.eqb_neq in N1, N2, N3, N4.
  destruct (truthy (dget "texto" d)), (numero_given (dget "numero" d)),
    (truthy (dget "opcion_id" d)); simpl; now rewrite ?N1, ?N2, ?N3, ?N4.
Qed.

Lemma lookup_dset k k' v d :
  lookup k (dset k' v d) = if String.eqb k k' then Some v else lookup k d.
Proof.
  destruct (String.eqb k k') eqn:E.
  - apply String.eqb_eq in E. subst. apply lookup_dset_same.
  - apply String.eqb_neq in E. now apply lookup_dset_other.
Qed.

Lemma py_iter_truthy v l :
  truthy v = true -> py_iter v = Ok l -> l <> [].
Proof.
  destruct v as [| | | |s|l0|d]; simpl; try discriminate.
  - destruct s; simpl; [discriminate|]. intros _ [= <-]. discriminate.
  - destruct l0; [discriminate|]. intros _ [= <-]. discriminate.
  - destruct d; [discriminate|]. intros _ [= <-]. discriminate.
Qed.

Lemma rows_of_answer_inv a rows :
  rows_of_answer a = Ok rows ->
  exists d base,
    a = JDict d /\ base_record d = Ok base /\ rows <> [] /\
    if truthy (dget "opciones_ids" d)
    then exists ids,
        py_iter (dget "opciones_ids" d) = Ok ids /\
        rows = map (fun oid => JDict (dset "opcion_id" oid base)) ids
    else rows = [JDict base].
Proof.
  destruct a as [| | | | | |d]; simpl; try discriminate.
  destruct (base_record d) as [base|] eqn:Eb; simpl; [|discriminate].
  intros H. exists d, base. refine (conj eq_refl (conj Eb _)).
  destruct (truthy (dget "opciones_ids" d)) eqn:E.
  - destruct (py_iter _) as [ids|] eqn:Ei; simpl in H; [|discriminate].
    injection H as <-. split; [|eauto].
    pose proof (py_iter_truthy _ _ E Ei). now destruct ids.
  - injection H as <-. split; [discriminate | reflexivity].
Qed.

Lemma flat_map_nonempty_length {A B} (f : A -> list B) xs :
  (forall x, In x xs -> f x <> []) ->
  (List.length xs <= List.length (flat_map f xs))%nat.
Proof.
  induction xs as [|x xs IH]; simpl; intros H; [lia|].
  rewrite length_app.
  assert (f x <> []) by (apply H; now left).
  assert (List.length xs <= List.length (flat_map f xs))%nat
    by (apply IH; intros y Hy; apply H; now right).
  destruct (f x); [congruence | simpl; lia].
Qed.

Lemma for_each_ok_each {A B} (f : A -> result (list B)) xs ys x :
  for_each f xs = Ok ys -> In x xs -> exists l, f x = Ok l.
Proof.
  revert ys. induction xs as [|x0 xs IH]; simpl; intros ys H Hx; [destruct Hx|].
  destruct (f x0) as [l|] eqn:E; simpl in H; [|discriminate].
  destruct (for_each f xs) as [zs|]; simpl in H; [|discriminate].
  destruct Hx as [<-|Hx]; eauto.
Qed.

Lemma build_backend_payload_inv res payload :
  build_backend_payload res = Ok payload ->
  exists filas,
    payload = JDict [("respuestas_preguntas", JList filas)] /\
    rows_of payload = filas /\
    for_each rows_of_answer (answers_of res) = Ok filas.
Proof.
  unfold build_backend_payload. destruct res as [| | | | | |d]; try discriminate.
  unfold answers_of at 1.
  destruct (py_iter _) as [rs|]; simpl; [|discriminate].
  destruct (for_each rows_of_answer rs) as [filas|]; simpl; [|discriminate].
  intros [= <-]. exists filas. auto.
Qed.

(** X6.  The rows of the payload are the rows of the first answer, then
    those of the second, and so on, and every answer gives at least one
    row: the payload never has fewer rows than there are answers. *)
Theorem payload_rows_follow_answers res payload :
  build_backend_payload res = Ok payload ->
  rows_of payload =
  flat_map (fun r => match rows_of_answer r with
                     | Ok l => l
                     | Raise _ => []
                     end) (answers_of res) /\
  (List.length (answers_of res) <= List.length (rows_of payload))%nat.
Proof.
  intros H.
  apply build_backend_payload_inv in H as (filas & _ & Hr & Hf).
  rewrite Hr.
  pose proof (for_each_flat_map _ _ _ Hf) as E. split; [exact E|].
  rewrite E. apply flat_map_nonempty_length.
  intros a Ha. destruct (for_each_ok_each _ _ _ _ Hf Ha) as [l Hl].
  rewrite Hl. now destruct (rows_of_answer_inv _ _ Hl) as (_ & _ & _ & _ & N & _).
Qed.

Lemma payload_row_origin res payload row :
  build_backend_payload res = Ok payload ->
  In row (rows_of payload) ->
  exists d rd,
    In (JDict d) (answers_of res) /\
    row = JDict rd /\
    lookup "pregunta_id" rd = lookup "pregunta_id" d /\
    lookup "pregunta_id" rd <> None /\
    lookup "texto" rd =
      (if truthy (dget "texto" d) then Some (dget "texto" d) else None) /\
    lookup "numero" rd =
      (if numero_given (dget "numero" d) then Some (dget "numero" d)
       else None) /\
    (forall k, lookup k rd <> None -> In k row_keys).
Proof.
  intros H Hrow.
  apply build_backend_payload_inv in H as (filas & _ & Hr & Hf).
  rewrite Hr in Hrow.
  destruct (for_each_In _ _ _ _ Hf Hrow) as (a & l & Ha & Hl & Hin).
  destruct (rows_of_answer_inv _ _ Hl) as (d & base & -> & Hb & _ & Hrows).
  assert (Hpid : lookup "pregunta_id" d <> None).
  { unfold base_record in Hb. simpl in Hb.
    destruct (lookup "pregunta_id" d); [discriminate|discriminate]. }
  assert (Hkeys : forall k, lookup k base <> None -> In k row_keys).
  { intros k. rewrite (base_record_lookup _ _ k Hb). unfold row_keys. simpl.
    destruct (String.eqb k "pregunta_id") eqn:E1;
      [apply String.eqb_eq in E1; auto|].
    destruct (String.eqb k "texto") eqn:E2;
      [apply String.eqb_eq in E2; auto|].
    destruct (String.eqb k "numero") eqn:E3;
      [apply String.eqb_eq in E3; auto|].
    destruct (String.eqb k "opcion_id") eqn:E4;
      [apply String.eqb_eq in E4; auto 6|].
    congruence. }
  exists d.
  destruct (truthy (dget "opciones_ids" d)).
  - destruct Hrows as (ids & _ & ->).
    apply in_map_iff in Hin as (oid & <- & _).
    exists (dset "opcion_id" oid base).
    rewrite !lookup_dset_other by discriminate.
    rewrite !(base_record_lookup _ _ _ Hb). simpl.
    refine (conj Ha (conj eq_refl (conj eq_refl (conj Hpid
              (conj eq_refl (conj eq_refl _)))))).
    intros k. rewrite lookup_dset.
    destruct (String.eqb k "opcion_id") eqn:E; [|apply Hkeys].
    apply String.eqb_eq in E. subst k. intros _. unfold row_keys. simpl. auto 6.
  - subst l. destruct Hin as [<-|[]]. exists base.
    rewrite !(base_record_lookup _ _ _ Hb). simpl.
    refine (conj Ha (conj eq_refl (conj eq_refl (conj Hpid
              (conj eq_refl (conj eq_refl Hkeys)))))).
Qed.

(** X7.  Every row of the payload comes from one answer: it has the
    ['pregunta_id'] of that answer, its text and number when
    [build_backend_payload] counts them as given, and no key besides
    ['pregunta_id'], ['texto'], ['numero'] and ['opcion_id']; the type tag
    and the list of choice ids are never sent. *)
Theorem payload_row_fields res payload row :
  build_backend_payload res = Ok payload ->
  In row (rows_of payload) ->
  exists d rd,
    In (JDict d) (answers_of res) /\
    row = JDict rd /\
    lookup "pregunta_id" rd = lookup "pregunta_id" d /\
    lookup "pregunta_id" rd <> None /\
    lookup "texto" rd =
      (if truthy (dget "texto" d) then Some (dget "texto" d) else None) /\
    lookup "numero" rd =
      (if numero_given (dget "numero" d) then Some (dget "numero" d)
       else None) /\
    (forall k, lookup k rd <> None -> In k row_keys).
Proof. exact (payload_row_origin res payload row). Qed.

(** ** Sanitizing, then building *)

Lemma forallb_filter {A} (p f : A -> bool) l :
  forallb p l = true -> forallb p (filter f l) = true.
Proof.
  induction l as [|x l IH]; simpl; auto. intros H.
  apply andb_prop in H as [Hx Hl].
  destruct (f x); simpl; [rewrite Hx|]; auto.
Qed.

Lemma sanitize_dict_id_list mapa raw r :
  sanitize_dict mapa raw = Ok (Some r) ->
  id_list (lookup "opciones_ids" raw) = true ->
  id_list (lookup "opciones_ids" r) = true.
Proof.
  intros H Hl.
  apply sanitize_dict_inv in H as (_ & found & d1 & d3 & _ & H1 & H3 & H5).
  destruct (rule_single_choice_ok
              (dget "tipo_pregunta_id" (resolve_alias raw))
              (rule_numeric (dget "tipo_pregunta_id" (resolve_alias raw)) d1))
    as (d' & Hd' & Hl').
  { rewrite rule_numeric_other by discriminate.
    rewrite (rule_free_text_other _ _ _ _ _ H1) by discriminate.
    now rewrite resolve_alias_other by discriminate. }
  rewrite H3 in Hd'. injection Hd' as <-.
  destruct (eq_int (dget "tipo_pregunta_id" (resolve_alias raw)) 4) eqn:T4.
  - apply (rule_multi_choice_inv _ _ _ _ T4) in H5
      as (valid & ids & _ & Hi & ->).
    rewrite lookup_dset_same. simpl. apply forallb_filter.
    unfold dget_or in Hi.
    destruct (lookup "opciones_ids" d3) as [[| | | | |l|]|];
      try discriminate; simpl in Hi; injection Hi as <-; auto.
  - rewrite rule_multi_choice_skip in H5 by assumption. now injection H5 as <-.
Qed.

Lemma rows_of_answer_ok d :
  lookup "pregunta_id" d <> None ->
  id_list (lookup "opciones_ids" d) = true ->
  exists rows, rows_of_answer (JDict d) = Ok rows.
Proof.
  intros Hp Hl. destruct (lookup "pregunta_id" d) as [pid|] eqn:E;
    [|congruence].
  destruct (base_record_ok d pid E) as (base & Hb & _).
  unfold rows_of_answer. rewrite Hb. simpl. unfold dget, dget_or.
  destruct (lookup "opciones_ids" d) as [[| | | | |[|x l]|]|];
    try discriminate; simpl; eauto.
Qed.

Lemma for_each_all_ok {A B} (f : A -> result (list B)) xs :
  (forall x, In x xs -> exists l, f x = Ok l) ->
  exists ys, for_each f xs = Ok ys.
Proof.
  induction xs as [|x xs IH]; simpl; intros H; [eauto|].
  destruct (H x (or_introl eq_refl)) as [l ->]. simpl.
  destruct IH as [ys ->]; [intros y Hy; apply H; now right|]. simpl. eauto.
Qed.

Lemma build_after_sanitize data plantilla out :
  sanitize_answers data plantilla = Ok out ->
  (forall raw, In (JDict raw) (answers_of data) ->
               id_list (lookup "opciones_ids" raw) = true) ->
  exists payload, build_backend_payload out = Ok payload.
Proof.
  intros H Hids.
  assert (Hall : forall a, In a (answers_of out) ->
                           exists rows, rows_of_answer a = Ok rows).
  { intros a Ha.
    destruct (sanitize_answers_In _ _ _ _ H Ha)
      as (mapa & raw & r & _ & Hin & -> & Hr).
    apply rows_of_answer_ok.
    - destruct (sanitize_dict_id _ _ _ Hr) as [-> _]. discriminate.
    - exact (sanitize_dict_id_list _ _ _ Hr (Hids raw Hin)). }
  apply sanitize_answers_inv in H as (mapa & d & dep & _ & _ & _ & -> & Ho).
  rewrite Ho in Hall. unfold build_backend_payload.
  rewrite dget_or_dset_same. simpl.
  destruct (for_each_all_ok _ _ Hall) as [filas ->]. simpl. eauto.
Qed.

Lemma wf_data_answers data raw :
  wf_data data = true -> In (JDict raw) (answers_of data) ->
  wf_answer (JDict raw) = true.
Proof.
  destruct data as [| | | | | |d]; simpl; try discriminate.
  unfold dget_or.
  destruct (lookup "respuestas_preguntas" d) as [[| | | | |items|]|];
    try discriminate; simpl.
  - intros H Hin. rewrite forallb_forall in H. exact (H _ Hin).
  - intros _ [].
Qed.

(** X8.  On a template and extracted answers of the expected shape the
    two steps compose: [sanitize_answers] returns, and
    [build_backend_payload] returns on its output. *)
Theorem well_shaped_answers_reach_the_payload data plantilla :
  wf_plantilla plantilla = true ->
  wf_data data = true ->
  exists out payload,
    sanitize_answers data plantilla = Ok out /\
    build_backend_payload out = Ok payload.
Proof.
  intros Hp Hd.
  assert (Hs : exists out, sanitize_answers data plantilla = Ok out).
  { destruct (build_mapa_ok plantilla Hp) as (mapa & Hm & Hwf).
    unfold sanitize_answers. rewrite Hm. simpl.
    destruct data as [| | | | | |d]; simpl in Hd; try discriminate.
    unfold dget_or.
    destruct (lookup "respuestas_preguntas" d) as [[| | | | |items|]|];
      try discriminate; simpl.
    - destruct (for_each_sanitize_ok mapa items Hwf Hd) as (dep & -> & _).
      simpl. eauto.
    - eauto. }
  destruct Hs as [out Hs].
  destruct (build_after_sanitize _ _ _ Hs) as [payload Hb].
  - intros raw Hin. pose proof (wf_data_answers _ _ Hd Hin) as Hw.
    simpl in Hw. now apply andb_prop in Hw as [_ Hw].
  - eauto.
Qed.

(** * Further properties of the handlers *)

Lemma prepare_inv w file name id transcript payload :
  prepare w file name id = inr (transcript, payload) ->
  exists plantilla raw_json ocr_json,
    fetch_plantilla w id = inr plantilla /\
    whisper w (contents file) name = Some transcript /\
    sanitize_answers raw_json plantilla = Ok ocr_json /\
    build_backend_payload ocr_json = Ok payload.
Proof.
  unfold prepare.
  destruct (fetch_plantilla w id) as [r|plantilla]; [discriminate|].
  destruct (py_getitem plantilla "preguntas") as [preguntas|]; [|discriminate].
  destruct (whisper w (contents file) name) as [t|]; [|discriminate].
  destruct (gpt w preguntas t) as [|[raw_json|]]; try discriminate.
  destruct (sanitize_answers raw_json plantilla) as [ocr_json|] eqn:Es;
    [|discriminate].
  destruct (build_backend_payload ocr_json) as [p|] eqn:Eb; [|discriminate].
  intros [= <- <-]. exists plantilla, raw_json, ocr_json. auto.
Qed.

Lemma prepare_never_json w file name id r content :
  prepare w file name id = inl r -> r <> JSONResponse content.
Proof.
  unfold prepare, fetch_plantilla.
  destruct (backend_get w id) as [|code text body]; [now intros [= <-]|].
  destruct (negb (code =? 200)); [now intros [= <-]|].
  destruct body as [plantilla|]; [|now intros [= <-]].
  destruct (py_getitem plantilla "preguntas") as [preguntas|];
    [|now intros [= <-]].
  destruct (whisper w (contents file) name) as [t|]; [|now intros [= <-]].
  destruct (gpt w preguntas t) as [|[raw_json|]]; try now intros [= <-].
  destruct (sanitize_answers raw_json plantilla) as [ocr_json|];
    [|now intros [= <-]].
  destruct (build_backend_payload ocr_json); [discriminate|now intros [= <-]].
Qed.

Lemma stt_endpoint_inv w file content :
  stt_endpoint w file = JSONResponse content ->
  exists name transcript payload,
    filename file = Some name /\
    UUID_ok (before_dot name) = true /\
    prepare w file name (before_dot name) = inr (transcript, payload) /\
    content =
    JDict [("entrega_id", JStr (before_dot name));
           ("transcripcion", JStr transcript);
           ("payload_enviado", payload);
           ("respuesta_backend", submit w (before_dot name) payload)] /\
    renderable content = true.
Proof.
  unfold stt_endpoint, entrega_of.
  destruct (content_type file) as [ct|]; [|discriminate].
  destruct (negb (String.prefix "audio/" ct)); [discriminate|].
  destruct (filename file) as [name|]; [|discriminate].
  destruct (UUID_ok (before_dot name)) eqn:U; [|discriminate].
  unfold process.
  destruct (prepare w file name (before_dot name)) as [r|[t p]] eqn:P.
  - intros ->. now elim (prepare_never_json _ _ _ _ _ content P).
  - unfold json_response.
    match goal with
    | |- (if ?b then _ else _) = _ -> _ => destruct b eqn:R; [|discriminate]
    end.
    intros [= <-]. exists name, t, p. auto.
Qed.

(** X9.  In every 200 response of [POST /stt] to an upload with an
    ASCII filename, the delivery id is the filename up to its first dot
    and parses as a UUID, no number of the body is a NaN or an infinity,
    and each row of [payload_enviado] has a non-empty ['pregunta_id'] and
    no key besides ['pregunta_id'], ['texto'], ['numero'] and
    ['opcion_id']. *)
Theorem stt_response_carries_identified_rows w file content :
  ascii_named file = true ->
  stt_endpoint w file = JSONResponse content ->
  exists name transcript payload,
    filename file = Some name /\
    UUID_ok (before_dot name) = true /\
    content =
    JDict [("entrega_id", JStr (before_dot name));
           ("transcripcion", JStr transcript);
           ("payload_enviado", payload);
           ("respuesta_backend", submit w (before_dot name) payload)] /\
    renderable content = true /\
    forall row, In row (rows_of payload) ->
                exists rd,
                  row = JDict rd /\
                  truthy (dget "pregunta_id" rd) = true /\
                  forall k, lookup k rd <> None -> In k row_keys.
Proof.
  intros _ H.
  apply stt_endpoint_inv in H
    as (name & transcript & payload & Hn & Hu & Hp & Hc & Hr).
  exists name, transcript, payload.
  refine (conj Hn (conj Hu (conj Hc (conj Hr _)))).
  apply prepare_inv in Hp as (plantilla & raw_json & ocr_json & _ & _ & Hs & Hb).
  intros row Hrow.
  destruct (payload_row_origin _ _ _ Hb Hrow)
    as (d & rd & Hin & -> & Hpid & _ & _ & _ & Hkeys).
  exists rd. refine (conj eq_refl (conj _ Hkeys)).
  destruct (sanitize_answers_In _ _ _ _ Hs Hin)
    as (mapa & raw & r & _ & _ & [= ->] & Hr').
  destruct (sanitize_dict_id _ _ _ Hr') as [Hp Hq].
  unfold dget, dget_or. now rewrite Hpid, Hp.
Qed.

(** X10.  To an upload with an ASCII filename [POST /stt] answers 200,
    400, 500 or the status the backend gave to the template request,
    and it answers 200 only with the JSON body of lines 182-187. *)
Theorem stt_status_range w file :
  ascii_named file = true ->
  (status (stt_endpoint w file) = 200 \/
   status (stt_endpoint w file) = 400 \/
   status (stt_endpoint w file) = 500 \/
   exists id code text body,
     entrega_of file = Some id /\
     backend_get w id = GetReplied code text body /\
     code <> 200 /\
     stt_endpoint w file = HTTPException code (NoPlantilla text)) /\
  (status (stt_endpoint w file) = 200 <->
   exists content, stt_endpoint w file = JSONResponse content).
Proof.
  intros _. unfold stt_endpoint.
  destruct (content_type file) as [ct|];
    [|split; [auto | split; [discriminate | intros [? [=]]]]].
  destruct (negb (String.prefix "audio/" ct));
    [split; [auto | split; [discriminate | intros [? [=]]]]|].
  unfold entrega_of.
  destruct (filename file) as [name|];
    [|split; [auto | split; [discriminate | intros [? [=]]]]].
  destruct (UUID_ok (before_dot name));
    [|split; [auto | split; [discriminate | intros [? [=]]]]].
  unfold process, prepare, fetch_plantilla.
  destruct (backend_get w (before_dot name)) as [|code text body] eqn:G;
    [split; [simpl; auto | split; [discriminate | intros [? [=]]]]|].
  destruct (code =? 200) eqn:E; simpl.
  - destruct body as [plantilla|];
      [|split; [simpl; auto | split; [discriminate | intros [? [=]]]]].
    destruct (py_getitem plantilla "preguntas") as [preguntas|];
      [|split; [simpl; auto | split; [discriminate | intros [? [=]]]]].
    destruct (whisper w (contents file) name) as [t|];
      [|split; [simpl; auto | split; [discriminate | intros [? [=]]]]].
    destruct (gpt w preguntas t) as [|[raw_json|]];
      try (split; [simpl; auto | split; [discriminate | intros [? [=]]]]).
    destruct (sanitize_answers raw_json plantilla) as [ocr_json|];
      [|split; [simpl; auto | split; [discriminate | intros [? [=]]]]].
    destruct (build_backend_payload ocr_json) as [payload|];
      [|split; [simpl; auto | split; [discriminate | intros [? [=]]]]].
    unfold json_response.
    match goal with
    | |- context [if ?b then _ else _] => destruct b
    end.
    + split; [simpl; auto | split; [eauto | reflexivity]].
    + split; [simpl; auto | split; [discriminate | intros [? [=]]]].
  - apply Z.eqb_neq in E. split.
    + right. right. right. exists (before_dot name), code, text, body.
      repeat split; auto.
    + simpl. split; [congruence | intros [? [=]]].
Qed.

(** X11.  [POST /whisper-test] answers 400 exactly when the content
    type does not start with [audio/], whatever the filename, and
    [POST /stt] answers 400 to every upload that [/whisper-test] answers
    400 to. *)
Theorem whisper_test_rejects_by_content_type_only w file ct :
  content_type file = Some ct ->
  (test_status (whisper_test w file) = 400 <->
   String.prefix "audio/" ct = false) /\
  (test_status (whisper_test w file) = 400 ->
   status (stt_endpoint w file) = 400) /\
  (String.prefix "audio/" ct = true ->
   forall name texto,
     filename file = Some name ->
     whisper w (contents file) name = Some texto ->
     whisper_test w file
     = TestOk (JDict [("filename", JStr name);
                      ("transcripcion", JStr texto)])).
Proof.
  intros Hct. unfold whisper_test, stt_endpoint. rewrite Hct.
  destruct (String.prefix "audio/" ct) eqn:E; simpl.
  - assert (N : test_status
                  match filename file with
                  | Some name =>
                      match whisper w (contents file) name with
                      | Some texto =>
                          TestOk (JDict [("filename", JStr name);
                                         ("transcripcion", JStr texto)])
                      | None => TestFailed
                      end
                  | None => TestFailed
                  end <> 400).
    { destruct (filename file) as [name|]; [|discriminate].
      destruct (whisper w (contents file) name); discriminate. }
    split; [split; [tauto | discriminate]|]. split; [tauto|].
    intros _ name texto -> ->. reflexivity.
  - split; [tauto|]. split; [reflexivity | discriminate].
Qed.

(** * Properties of the transcription helpers *)

Lemma has_char_append c s t :
  has_char c (s ++ t) = (has_char c s || has_char c t)%bool.
Proof.
  induction s as [|a s IH]; simpl; auto. rewrite IH. apply orb_assoc.
Qed.

Lemma rfind_absent c s : has_char c s = false -> rfind c s = -1.
Proof.
  induction s as [|a s IH]; simpl; auto. intros H.
  apply orb_false_elim in H as [Ha Hs]. rewrite (IH Hs). simpl. now rewrite Ha.
Qed.

Lemma rfind_last c s t :
  has_char c t = false ->
  rfind c (s ++ String c t) = Z.of_nat (String.length s).
Proof.
  intros Ht. induction s as [|a s IH].
  - simpl. rewrite (rfind_absent _ _ Ht). simpl. now rewrite Ascii.eqb_refl.
  - change (rfind c (String a s ++ String c t))
      with (let r := rfind c (s ++ String c t) in
            if 0 <=? r then r + 1 else if Ascii.eqb a c then 0 else -1).
    rewrite IH. cbv zeta.
    destruct (0 <=? Z.of_nat (String.length s)) eqn:E.
    + simpl String.length. lia.
    + apply Z.leb_gt in E. lia.
Qed.

Lemma length_append s t :
  String.length (s ++ t) = (String.length s + String.length t)%nat.
Proof. induction s as [|a s IH]; simpl; auto. Qed.

Lemma substring_whole s : String.substring 0 (String.length s) s = s.
Proof. induction s as [|a s IH]; simpl; auto. now rewrite IH. Qed.

Lemma substring_head s t :
  String.substring 0 (String.length s) (s ++ t) = s.
Proof.
  induction s as [|a s IH]; simpl.
  - now destruct t.
  - now rewrite IH.
Qed.

Lemma substring_tail s t :
  String.substring (String.length s) (String.length t) (s ++ t) = t.
Proof.
  induction s as [|a s IH]; simpl; auto. apply substring_whole.
Qed.

Lemma splitext_named stem ext :
  has_char "/" stem = false ->
  has_char "/" ext = false ->
  has_char "." ext = false ->
  lstrip_by (Ascii.eqb ".") stem <> "" ->
  splitext (stem ++ String "." ext) = (stem, String "." ext).
Proof.
  intros Hs He Hd Hn. unfold splitext.
  rewrite rfind_absent
    by (rewrite has_char_append; simpl; now rewrite Hs, He).
  rewrite (rfind_last "." stem ext Hd).
  assert (L : (-1 <? Z.of_nat (String.length stem)) = true)
    by (apply Z.ltb_lt; lia).
  rewrite L. change (Z.to_nat (-1 + 1)) with 0%nat.
  rewrite Nat2Z.id, Nat.sub_0_r, substring_head.
  destruct (String.eqb_spec (lstrip_by (Ascii.eqb ".") stem) "") as [E|_];
    [contradiction|]. simpl negb. cbv iota.
  rewrite length_append.
  replace (String.length stem + String.length (String "." ext)
           - String.length stem)%nat
    with (String.length (String "." ext)) by lia.
  now rewrite substring_tail.
Qed.

(** X12.  Whatever the filename, [_safe_suffix] answers one of the ten
    audio extensions of its list. *)
Theorem safe_suffix_is_an_audio_suffix filename :
  In (_safe_suffix filename) audio_suffixes.
Proof.
  unfold _safe_suffix.
  destruct (existsb _ audio_suffixes) eqn:E.
  - apply existsb_exists in E as (x & Hx & Ex).
    apply String.eqb_eq in Ex. now subst x.
  - unfold audio_suffixes. simpl. auto 10.
Qed.

(** X13.  For a file named [stem.ext], where neither part has a slash,
    [ext] has no dot and [stem] is not made of dots only, [_safe_suffix]
    answers the lower-cased [.ext] when that is in its list and [.wav]
    otherwise. *)
Theorem safe_suffix_of_named_file stem ext :
  has_char "/" stem = false ->
  has_char "/" ext = false ->
  has_char "." ext = false ->
  lstrip_by (Ascii.eqb ".") stem <> "" ->
  _safe_suffix (stem ++ String "." ext) =
  if existsb (String.eqb (lower (String "." ext))) audio_suffixes
  then lower (String "." ext)
  else ".wav".
Proof.
  intros Hs He Hd Hn. unfold _safe_suffix.
  now rewrite (splitext_named stem ext Hs He Hd Hn).
Qed.



(** * More on the rules of the sanitizer *)

(** X15.  A NUMERIC answer with a non-empty scalar identifier comes out
    with its text set to null when it has a number, whatever the text
    was, and comes out as it came when it has no number; nothing else
    changes. *)
Theorem numeric_answer_loses_its_text mapa raw :
  eq_int (dget "tipo_pregunta_id" raw) 2 = true ->
  truthy (answer_id raw) = true ->
  hashable (answer_id raw) = true ->
  sanitize_dict mapa raw =
  Ok (Some (if is_none (dget "numero" raw) then resolve_alias raw
            else dset "texto" JNull (resolve_alias raw))).
Proof.
  intros Ht Hq Hh. unfold sanitize_dict. unfold answer_id in *.
  rewrite Hq, mapa_get_hashable by assumption; simpl.
  rewrite (dget_lookup "tipo_pregunta_id" raw (resolve_alias raw))
    by (apply resolve_alias_other; discriminate).
  rewrite rule_free_text_skip by (apply (eq_int_other _ 2 1 Ht); lia).
  simpl.
  rewrite rule_single_choice_skip by (apply (eq_int_other _ 2 3 Ht); lia).
  simpl.
  rewrite rule_multi_choice_skip by (apply (eq_int_other _ 2 4 Ht); lia).
  unfold rule_numeric. rewrite Ht.
  rewrite (dget_lookup "numero" raw (resolve_alias raw))
    by (apply resolve_alias_other; discriminate).
  now destruct (is_none (dget "numero" raw)).
Qed.




(** * The further properties at concrete inputs *)

Lemma unknown_type_witness :
  sanitize_dict demo_mapa ans_unknown_type = Ok (Some ans_unknown_type).
Proof.
  exact (proj2 (unknown_type_passes_through demo_mapa ans_unknown_type
                  eq_refl eq_refl eq_refl eq_refl eq_refl eq_refl) eq_refl).
Defined.

Lemma id_alias_witness :
  sanitize_dict demo_mapa ans_alias = Ok (Some ans_renamed) /\
  lookup "pregunta_id" ans_renamed = Some (JStr "q1") /\
  lookup "id" ans_renamed = None.
Proof.
  split; [reflexivity|].
  exact (proj2 (id_alias_is_renamed demo_mapa ans_alias ans_renamed eq_refl)).
Defined.

Lemma identified_entries_witness :
  sanitize_answers (respuestas [ans_alias; ans_anonymous; ans_zero])
    demo_plantilla
  = Ok (respuestas [ans_renamed; ans_zero]) /\
  List.length (answers_of (respuestas [ans_renamed; ans_zero])) = 2%nat.
Proof.
  split; [reflexivity|].
  exact (proj1 (sanitize_answers_keeps_identified_entries
                  (respuestas [ans_alias; ans_anonymous; ans_zero])
                  demo_plantilla (respuestas [ans_renamed; ans_zero])
                  eq_refl)).
Defined.

Lemma idempotent_witness :
  sanitize_answers (respuestas [ans_two_choices]) demo_plantilla
  = Ok (respuestas [ans_first_choice]) /\
  sanitize_answers (respuestas [ans_first_choice]) demo_plantilla
  = Ok (respuestas [ans_first_choice]).
Proof.
  split; [reflexivity|].
  exact (sanitize_answers_idempotent (respuestas [ans_two_choices])
           demo_plantilla (respuestas [ans_first_choice]) eq_refl).
Defined.

Lemma last_question_witness :
  exists mapa,
    build_mapa (JDict [("preguntas", JList [q_nombre; q_apellido; q_edad])])
    = Ok mapa /\
    mapa_get mapa (JStr "q1") = Ok (Some q_apellido).
Proof.
  apply (last_question_with_an_id_wins
           [("preguntas", JList [q_nombre; q_apellido; q_edad])]
           [q_nombre] q_apellido [q_edad] "q1" eq_refl).
  - repeat constructor. now exists "q1".
  - reflexivity.
  - repeat constructor. now exists "q2".
  - repeat constructor. discriminate.
Defined.

Lemma payload_rows_witness :
  build_backend_payload (respuestas [ans_kept_choices; ans_zero])
  = Ok payload_three_rows /\
  (List.length (answers_of (respuestas [ans_kept_choices; ans_zero]))
   <= List.length (rows_of payload_three_rows))%nat.
Proof.
  split; [reflexivity|].
  exact (proj2 (payload_rows_follow_answers
                  (respuestas [ans_kept_choices; ans_zero])
                  payload_three_rows eq_refl)).
Defined.

Lemma payload_row_fields_witness :
  exists d rd,
    In (JDict d) (answers_of (respuestas [ans_kept_choices; ans_zero])) /\
    JDict [("pregunta_id", JStr "q2"); ("numero", JInt 0)] = JDict rd /\
    lookup "pregunta_id" rd = lookup "pregunta_id" d /\
    forall k, lookup k rd <> None -> In k row_keys.
Proof.
  destruct (payload_row_fields (respuestas [ans_kept_choices; ans_zero])
              payload_three_rows
              (JDict [("pregunta_id", JStr "q2"); ("numero", JInt 0)])
              eq_refl (or_intror (or_intror (or_introl eq_refl))))
    as (d & rd & H1 & H2 & H3 & _ & _ & _ & H7).
  exists d, rd. auto.
Defined.

Lemma well_shaped_pipeline_witness :
  exists out payload,
    sanitize_answers (respuestas [ans_echo; ans_zero; ans_mixed_choices])
      demo_plantilla = Ok out /\
    build_backend_payload out = Ok payload.
Proof.
  exact (well_shaped_answers_reach_the_payload
           (respuestas [ans_echo; ans_zero; ans_mixed_choices])
           demo_plantilla eq_refl eq_refl).
Defined.

Lemma stt_response_witness :
  stt_endpoint world_ok named_upload = JSONResponse demo_content /\
  exists name,
    filename named_upload = Some name /\
    UUID_ok (before_dot name) = true.
Proof.
  split; [reflexivity|].
  destruct (stt_response_carries_identified_rows world_ok named_upload
              demo_content eq_refl eq_refl)
    as (name & transcript & payload & Hn & Hu & _).
  exists name. auto.
Defined.

Lemma whisper_test_witness :
  test_status (whisper_test world_ok misnamed_upload) = 200 /\
  whisper_test world_ok misnamed_upload
  = TestOk (JDict [("filename", JStr "not-a-uuid.wav");
                   ("transcripcion", JStr "me llamo Ana")]).
Proof.
  split; [reflexivity|].
  exact (proj2 (proj2 (whisper_test_rejects_by_content_type_only
                         world_ok misnamed_upload "audio/wav" eq_refl))
           eq_refl "not-a-uuid.wav" "me llamo Ana" eq_refl eq_refl).
Defined.

Lemma safe_suffix_witness : _safe_suffix "nota.MP3" = ".mp3".
Proof.
  apply (safe_suffix_of_named_file "nota" "MP3"); try reflexivity.
  discriminate.
Defined.


Lemma numeric_answer_witness :
  sanitize_dict demo_mapa ans_number_and_text
  = Ok (Some (respuesta "q2" 2 JNull (JInt 30) JNull [])).
Proof.
  exact (numeric_answer_loses_its_text demo_mapa ans_number_and_text
           eq_refl eq_refl eq_refl).
Defined.




Lemma stt_status_range_witness :
  ascii_named named_upload = true /\
  (status (stt_endpoint world_backend_400 named_upload) = 200 <->
   exists content,
     stt_endpoint world_backend_400 named_upload = JSONResponse content).
Proof.
  split; [reflexivity|].
  exact (proj2 (stt_status_range world_backend_400 named_upload eq_refl)).
Defined.

(** * Answers against the template they were extracted for *)

Lemma for_each_In_fwd {A B} (f : A -> result (list B)) xs ys x l y :
  for_each f xs = Ok ys -> In x xs -> f x = Ok l -> In y l -> In y ys.
Proof.
  revert ys. induction xs as [|x0 xs IH]; simpl; intros ys H Hx Hf Hy;
    [destruct Hx|].
  destruct (f x0) as [l0|] eqn:E0; simpl in H; [|discriminate].
  destruct (for_each f xs) as [zs|]; simpl in H; [|discriminate].
  injection H as <-. apply in_or_app. destruct Hx as [->|Hx].
  - left. rewrite Hf in E0. now injection E0 as <-.
  - right. eapply IH; eauto.
Qed.






(** * The number in the rows that are sent *)

(** C7.  For every answer of a document [build_backend_payload] returns
    on, rows are emitted, each of them is in the payload, and each
    carries [numero] exactly when the answer has one that is neither
    null nor the empty string, and then with the same value: a zero is
    sent, a missing, null or empty-string number is not. *)
Theorem numero_is_sent_unless_null_or_empty res payload d :
  build_backend_payload res = Ok payload ->
  In (JDict d) (answers_of res) ->
  exists base rows,
    base_record d = Ok base /\
    rows_of_answer (JDict d) = Ok rows /\
    rows <> [] /\
    (forall row,
        In row rows ->
        In row (rows_of payload) /\
        exists rd,
          row = JDict rd /\
          lookup "numero" rd = lookup "numero" base /\
          forall v, lookup "numero" rd = Some v <->
                    lookup "numero" d = Some v /\ v <> JNull /\ v <> JStr "") /\
    (lookup "numero" d = Some (JInt 0) ->
     lookup "numero" base = Some (JInt 0)) /\
    (lookup "numero" d = None \/ lookup "numero" d = Some JNull \/
     lookup "numero" d = Some (JStr "") ->
     lookup "numero" base = None).
Proof.
  intros H Hin.
  apply build_backend_payload_inv in H as (filas & _ & Hr & Hf).
  destruct (for_each_ok_each _ _ _ _ Hf Hin) as [rows Hrows].
  destruct (rows_of_answer_inv _ _ Hrows)
    as (d' & base & [= <-] & Hb & Hne & Hshape).
  assert (Hpid : exists pid, lookup "pregunta_id" d = Some pid).
  { unfold base_record in Hb. simpl in Hb.
    destruct (lookup "pregunta_id" d); [eauto|discriminate]. }
  destruct Hpid as [pid Hpid].
  destruct (base_record_numero d pid Hpid) as (base' & Hb' & Hiff & Hz & Hno).
  rewrite Hb in Hb'. injection Hb' as <-.
  exists base, rows.
  refine (conj Hb (conj Hrows (conj Hne (conj _ (conj Hz Hno))))).
  intros row Hrow. split.
  - rewrite Hr. exact (for_each_In_fwd _ _ _ _ _ _ Hf Hin Hrows Hrow).
  - destruct (truthy (dget "opciones_ids" d)).
    + destruct Hshape as (ids & _ & ->).
      apply in_map_iff in Hrow as (oid & <- & _).
      exists (dset "opcion_id" oid base).
      rewrite lookup_dset_other by discriminate.
      refine (conj eq_refl (conj eq_refl Hiff)).
    + subst rows. destruct Hrow as [<-|[]].
      exists base. refine (conj eq_refl (conj eq_refl Hiff)).
Qed.

(** * Template-level statements at concrete inputs *)








Lemma numero_zero_is_sent_witness :
  build_backend_payload (respuestas [ans_kept_choices; ans_zero])
  = Ok payload_three_rows /\
  exists base rows,
    rows_of_answer (JDict ans_zero) = Ok rows /\
    rows <> [] /\
    (forall row,
        In row rows ->
        In row (rows_of payload_three_rows) /\
        exists rd, row = JDict rd /\
                   lookup "numero" rd = lookup "numero" base) /\
    lookup "numero" base = Some (JInt 0).
Proof.
  split; [reflexivity|].
  destruct (numero_is_sent_unless_null_or_empty
              (respuestas [ans_kept_choices; ans_zero]) payload_three_rows
              ans_zero eq_refl (or_intror (or_introl eq_refl)))
    as (base & rows & _ & H2 & H3 & H4 & H5 & _).
  exists base, rows.
  split; [exact H2|]. split; [exact H3|]. split.
  - intros row Hrow. destruct (H4 row Hrow) as (Hin & rd & E & En & _).
    split; [exact Hin|]. exists rd. auto.
  - exact (H5 eq_refl).
Defined.

Lemma stt_answers_400_witness :
  content_type misnamed_upload = Some "audio/wav" /\
  ascii_only "not-a-uuid.wav" = true /\
  status (stt_endpoint world_ok misnamed_upload) = 400.
Proof.
  split; [reflexivity|]. split; [reflexivity|].
  refine (proj2 (stt_answers_400 world_ok misnamed_upload "audio/wav"
                   eq_refl _) eq_refl).
  now intros name [= <-].
Defined.

